(** * notice-search-server: the search tool of [src/index.ts]

    A shallow embedding of the MCP server of [src/index.ts]: the zod schema
    [SearchNoticeArgsSchema], the remote client [searchNotices], the report
    formatter [formatResults] and the [CallToolRequestSchema] handler.

    JavaScript numbers are IEEE binary64 values: they are Rocq's primitive
    floats.  JavaScript strings are embedded as byte strings holding the
    UTF-8 encoding of the text; the program only concatenates strings, tests
    them for equality and tests [length < 1], and these agree on both
    representations. *)

From Stdlib Require Import String Ascii List ZArith Lia Bool.
From Stdlib Require Import Decimal DecimalString DecimalPos.
From Stdlib Require Import Uint63.
From Stdlib Require Import Floats.PrimFloat Floats.SpecFloat Floats.FloatOps Floats.FloatAxioms.
Import ListNotations.

Set Warnings "-inexact-float,-register-all".

Local Open Scope string_scope.
Local Open Scope list_scope.

(** ** JavaScript strings and arrays *)

Module Str.

(** The line feed written [\n] in the source, and the double quote. *)
Definition LF : string := String (ascii_of_nat 10) EmptyString.
Definition DQUOTE : string := String (ascii_of_nat 34) EmptyString.

(** [String.prototype.repeat]. *)
Fixpoint repeat (s : string) (count : nat) : string :=
  match count with
  | O => EmptyString
  | S n => (s ++ repeat s n)%string
  end.

(** [Array.prototype.join] on an array of strings. *)
Fixpoint join (separator : string) (l : list string) : string :=
  match l with
  | [] => EmptyString
  | [x] => x
  | x :: rest => (x ++ separator ++ join separator rest)%string
  end.

(** Template-literal rendering of a non-negative integer such as
    [results.length], [index + 1] or [response.status]. *)
Definition ofNat (n : nat) : string := NilEmpty.string_of_uint (Nat.to_uint n).
Definition ofN (n : N) : string := NilEmpty.string_of_uint (N.to_uint n).

(** [Array.prototype.map] with the element's index, counted from [start]. *)
Fixpoint mapiFrom {A B : Type} (f : A -> nat -> B) (start : nat) (l : list A) : list B :=
  match l with
  | [] => []
  | x :: rest => f x start :: mapiFrom f (S start) rest
  end.

Definition mapi {A B : Type} (f : A -> nat -> B) (l : list A) : list B :=
  mapiFrom f 0 l.

Definition isDigit (c : ascii) : bool :=
  let n := nat_of_ascii c in (48 <=? n)%nat && (n <=? 57)%nat.

Fixpoint allDigits (s : string) : bool :=
  match s with
  | EmptyString => true
  | String c rest => isDigit c && allDigits rest
  end.

End Str.

(** ** JavaScript numbers *)

Module Number.

(** [ToIntegerOrInfinity] yields an integer or one of the two infinities. *)
Inductive IntegerOrInfinity : Type :=
| NegInfinity
| Finite (z : Z)
| PosInfinity.

(** The magnitude [m * 2^e] of a finite double, truncated to an integer. *)
Definition truncMagnitude (m : positive) (e : Z) : Z :=
  if (0 <=? e)%Z then Z.pos m * 2 ^ e else Z.pos m / 2 ^ (- e).

Definition toIntegerOrInfinity (x : float) : IntegerOrInfinity :=
  match Prim2SF x with
  | S754_nan => Finite 0
  | S754_zero _ => Finite 0
  | S754_infinity s => if s then NegInfinity else PosInfinity
  | S754_finite s m e =>
      let a := truncMagnitude m e in Finite (if s then - a else a)
  end.

(** [Number.isInteger]: finite, with no fractional part. *)
Definition isInteger (x : float) : bool :=
  match Prim2SF x with
  | S754_zero _ => true
  | S754_finite _ m e =>
      if (0 <=? e)%Z then true else (Z.pos m mod 2 ^ (- e) =? 0)%Z
  | S754_nan | S754_infinity _ => false
  end.

(** [isNaN]. *)
Definition isNaN (x : float) : bool := PrimFloat.is_nan x.

(** [ToBoolean] on a number: [0], [-0] and [NaN] are falsy. *)
Definition toBoolean (x : float) : bool :=
  negb (PrimFloat.is_zero x || PrimFloat.is_nan x).

(** The double holding a small integer, as a JSON integer literal parses. *)
Definition ofZ (z : Z) : float := PrimFloat.of_uint63 (Uint63.of_Z z).

(** [Number.prototype.toFixed] keeps the fixed notation below [10^21]. *)
Definition fixedLimit : Z := 10 ^ 21.

(** [|x| >= 10^21] for the finite double of magnitude [m * 2^e]. *)
Definition atLeastFixedLimit (m : positive) (e : Z) : bool :=
  if (0 <=? e)%Z then (fixedLimit <=? Z.pos m * 2 ^ e)%Z
  else (fixedLimit * 2 ^ (- e) <=? Z.pos m)%Z.

(** The integer [n] for which [n / 10 - m * 2^e] is as close to zero as
    possible, the larger one when there are two. *)
Definition nearestTenths (m : positive) (e : Z) : Z :=
  if (0 <=? e)%Z then 10 * Z.pos m * 2 ^ e
  else (20 * Z.pos m + 2 ^ (- e)) / (2 * 2 ^ (- e)).

(** The digits of [n] with a point before the last one. *)
Definition tenthsToString (n : Z) : string :=
  (Str.ofN (Z.to_N (n / 10)) ++ "." ++ Str.ofN (Z.to_N (n mod 10)))%string.

(** Whether [x.toFixed(1)] uses the fixed notation: [x] is finite and
    below [10^21] in magnitude. *)
Definition inFixedRange (x : float) : bool :=
  match Prim2SF x with
  | S754_zero _ => true
  | S754_finite _ m e => negb (atLeastFixedLimit m e)
  | S754_nan | S754_infinity _ => false
  end.

Section ToFixed.

(** [Number::toString], which [toFixed] falls back to from [10^21] on;
    it belongs to the JavaScript runtime. *)
Variable Number_toString : float -> string.

(** [x.toFixed(1)]. *)
Definition toFixed1 (x : float) : string :=
  match Prim2SF x with
  | S754_nan => "NaN"
  | S754_infinity s => if s then "-Infinity" else "Infinity"
  | S754_zero _ => tenthsToString 0
  | S754_finite s m e =>
      if atLeastFixedLimit m e then
        ((if s then "-" else "") ++ Number_toString (PrimFloat.abs x))%string
      else
        ((if s then "-" else "") ++ tenthsToString (nearestTenths m e))%string
  end.

End ToFixed.

End Number.

(** ** JSON values

    The arguments of a tool call are typed [unknown]: any JSON value. *)

Inductive json : Type :=
| JNull
| JBool (b : bool)
| JNumber (x : float)
| JString (s : string)
| JArray (items : list json)
| JObject (members : list (string * json)).

(** The property read [data[key]] on the members of an object; [None] is
    JavaScript's [undefined]. *)
Fixpoint getMember (key : string) (members : list (string * json)) : option json :=
  match members with
  | [] => None
  | (k, v) :: rest => if String.eqb k key then Some v else getMember key rest
  end.

(** ** The part of zod 3 that [SearchNoticeArgsSchema] uses *)

Module Zod.

Inductive ZodParsedType : Type :=
| string_ | nan | number | integer | float_ | boolean
| undefined | null | array | object.

(** [getParsedType]: the run-time type of the input ([None] is
    [undefined]). *)
Definition getParsedType (data : option json) : ZodParsedType :=
  match data with
  | None => undefined
  | Some JNull => null
  | Some (JBool _) => boolean
  | Some (JNumber x) => if Number.isNaN x then nan else number
  | Some (JString _) => string_
  | Some (JArray _) => array
  | Some (JObject _) => object
  end.

Inductive ZodIssueCode : Type :=
| invalid_type (expected received : ZodParsedType)
| too_small (type_ : ZodParsedType) (minimum : float) (inclusive : bool)
| too_big (type_ : ZodParsedType) (maximum : float) (inclusive : bool).

(** An issue: its code, the path of the field, and the message given with
    the check when there is one (else the error map words it). *)
Record ZodIssue : Type := mkIssue {
  code : ZodIssueCode;
  path : list string;
  customMessage : option string
}.

(** A parser's status: valid, dirty (a value, with issues) or aborted. *)
Inductive ParseReturn (A : Type) : Type :=
| OK (value : A)
| DIRTY (value : A)
| INVALID.
Arguments OK {A} value.
Arguments DIRTY {A} value.
Arguments INVALID {A}.

(** A schema parses the input found at a path ([None] when the key is
    absent) into the issues it adds to the context and a status. *)
Definition ZodType (A : Type) : Type :=
  list string -> option json -> list ZodIssue * ParseReturn A.

Definition statusOf {A : Type} (issues : list ZodIssue) (value : A) : ParseReturn A :=
  match issues with
  | [] => OK value
  | _ :: _ => DIRTY value
  end.

(** *** [z.string()] with its checks *)

Inductive StringCheck : Type :=
| string_min (value : nat) (message : option string).

Definition runStringCheck (path : list string) (data : string) (check : StringCheck)
  : list ZodIssue :=
  match check with
  | string_min value message =>
      if (String.length data <? value)%nat
      then [mkIssue (too_small string_ (Number.ofZ (Z.of_nat value)) true) path message]
      else []
  end.

Definition ZodString (checks : list StringCheck) : ZodType string :=
  fun path input =>
    match input with
    | Some (JString data) =>
        let issues := flat_map (runStringCheck path data) checks in
        (issues, statusOf issues data)
    | _ => ([mkIssue (invalid_type string_ (getParsedType input)) path None], INVALID)
    end.

(** *** [z.number()] with its checks *)

Inductive NumberCheck : Type :=
| number_int
| number_min (value : float) (inclusive : bool)
| number_max (value : float) (inclusive : bool).

Definition runNumberCheck (path : list string) (data : float) (check : NumberCheck)
  : list ZodIssue :=
  match check with
  | number_int =>
      if negb (Number.isInteger data)
      then [mkIssue (invalid_type integer float_) path None]
      else []
  | number_min value inclusive =>
      let tooSmall := if inclusive then (data <? value)%float else (data <=? value)%float in
      if tooSmall then [mkIssue (too_small number value inclusive) path None] else []
  | number_max value inclusive =>
      let tooBig := if inclusive then (value <? data)%float else (value <=? data)%float in
      if tooBig then [mkIssue (too_big number value inclusive) path None] else []
  end.

Definition ZodNumber (checks : list NumberCheck) : ZodType float :=
  fun path input =>
    match input with
    | Some (JNumber data) =>
        if Number.isNaN data
        then ([mkIssue (invalid_type number (getParsedType input)) path None], INVALID)
        else
          let issues := flat_map (runNumberCheck path data) checks in
          (issues, statusOf issues data)
    | _ => ([mkIssue (invalid_type number (getParsedType input)) path None], INVALID)
    end.

(** *** [.optional()] and [.default(value)] *)

Definition mapReturn {A B : Type} (f : A -> B) (r : ParseReturn A) : ParseReturn B :=
  match r with
  | OK v => OK (f v)
  | DIRTY v => DIRTY (f v)
  | INVALID => INVALID
  end.

Definition ZodOptional {A : Type} (innerType : ZodType A) : ZodType (option A) :=
  fun path input =>
    match input with
    | None => ([], OK None)
    | Some _ => let (issues, r) := innerType path input in (issues, mapReturn Some r)
    end.

Definition ZodDefault {A : Type} (innerType : ZodType A) (defaultValue : json) : ZodType A :=
  fun path input =>
    match input with
    | None => innerType path (Some defaultValue)
    | Some _ => innerType path input
    end.

(** *** [z.object({...})] with two keys, unknown keys stripped *)

Definition mergeObject {A B C : Type} (build : A -> B -> C)
  (r1 : ParseReturn A) (r2 : ParseReturn B) : ParseReturn C :=
  match r1, r2 with
  | INVALID, _ => INVALID
  | _, INVALID => INVALID
  | OK a, OK b => OK (build a b)
  | OK a, DIRTY b | DIRTY a, OK b | DIRTY a, DIRTY b => DIRTY (build a b)
  end.

Definition ZodObject {A B C : Type}
  (key1 : string) (schema1 : ZodType A) (key2 : string) (schema2 : ZodType B)
  (build : A -> B -> C) : ZodType C :=
  fun path input =>
    match input with
    | Some (JObject members) =>
        let (issues1, r1) := schema1 (path ++ [key1]) (getMember key1 members) in
        let (issues2, r2) := schema2 (path ++ [key2]) (getMember key2 members) in
        (issues1 ++ issues2, mergeObject build r1 r2)
    | _ => ([mkIssue (invalid_type object (getParsedType input)) path None], INVALID)
    end.

(** *** [safeParse] *)

Inductive SafeParseReturn (A : Type) : Type :=
| SafeParseSuccess (data : A)
| SafeParseError (errors : list ZodIssue).
Arguments SafeParseSuccess {A} data.
Arguments SafeParseError {A} errors.

Definition safeParse {A : Type} (schema : ZodType A) (data : option json)
  : SafeParseReturn A :=
  match schema [] data with
  | (_, OK value) => SafeParseSuccess value
  | (issues, _) => SafeParseError issues
  end.

End Zod.

(** ** The schema of the tool's arguments *)

(** What [SearchNoticeArgsSchema] parses to.  The static type of [limit] is
    [number]; at run time the value is what the optional schema under the
    default returns, so [undefined] ([None]) is representable. *)
Record SearchNoticeArgs : Type := mkArgs {
  query : string;
  limit : option float
}.

Definition querySchema : Zod.ZodType string :=
  Zod.ZodString [Zod.string_min 1 (Some "검색어는 비워둘 수 없습니다")].

Definition limitSchema : Zod.ZodType (option float) :=
  Zod.ZodDefault
    (Zod.ZodOptional
       (Zod.ZodNumber [Zod.number_int; Zod.number_min 1 true; Zod.number_max 50 true]))
    (JNumber 5).

Definition SearchNoticeArgsSchema : Zod.ZodType SearchNoticeArgs :=
  Zod.ZodObject "query" querySchema "limit" limitSchema mkArgs.

(** [safeParse] failed, with at least one issue to report. *)
Definition rejected {A : Type} (r : Zod.SafeParseReturn A) : Prop :=
  exists issue issues, r = Zod.SafeParseError (issue :: issues).

(** The members of an object under the keys the schema declares. *)
Definition declaredKey (key : string) : bool :=
  String.eqb key "query" || String.eqb key "limit".

Definition declaredOnly (members : list (string * json)) : list (string * json) :=
  filter (fun member => declaredKey (fst member)) members.

(** [SearchNoticeArgsSchema.safeParse] on the object with these members. *)
Definition parseArgs (members : list (string * json)) : Zod.SafeParseReturn SearchNoticeArgs :=
  Zod.safeParse SearchNoticeArgsSchema (Some (JObject members)).

(** ** Errors and promises *)

(** An [Error] object, as far as the program looks at it. *)
Record Error : Type := mkError {
  name : string;
  message : string
}.

(** [new Error(message)]. *)
Definition newError (message : string) : Error := mkError "Error" message.

(** A thrown value: an instance of [Error], or anything else, of which the
    program only ever takes [String(error)]; it is kept as that string. *)
Inductive Thrown : Type :=
| ThrownError (error : Error)
| ThrownOther (stringified : string).

(** The state a promise ends in: fulfilled, rejected, or never settled. *)
Inductive Settled (A : Type) : Type :=
| Fulfilled (value : A)
| Rejected (reason : Thrown)
| Pending.
Arguments Fulfilled {A} value.
Arguments Rejected {A} reason.
Arguments Pending {A}.

(** [await p] followed by the rest of the [try] block. *)
Definition andThen {A B : Type} (p : Settled A) (k : A -> Settled B) : Settled B :=
  match p with
  | Fulfilled value => k value
  | Rejected reason => Rejected reason
  | Pending => Pending
  end.

(** [try { p } catch (error) { handler }]. *)
Definition catch {A : Type} (p : Settled A) (handler : Thrown -> Settled A) : Settled A :=
  match p with
  | Rejected reason => handler reason
  | Fulfilled _ | Pending => p
  end.

Notation "'await' x <- p ;; k" := (andThen p (fun x => k))
  (at level 61, x name, p at next level, right associativity).

Definition throw {A : Type} (error : Error) : Settled A := Rejected (ThrownError error).

(** ** Data model *)

Record Metadata : Type := mkMetadata {
  organization : string;
  region : string;
  startupHistory : string
}.

Record NoticeResult : Type := mkNoticeResult {
  title : string;
  url : string;
  score : float;
  metadata : Metadata
}.

(** The value of [data.results] when the property exists.  The cast
    [as SearchResponse] checks nothing; the program then tests the value for
    truthiness and with [Array.isArray], and uses the elements of an array
    at their declared type [NoticeResult].  The model holds the arrays
    whose elements have that type; an array with another element (a
    [null], an object without [metadata]), on which the formatter can
    throw, is not represented. *)
Inductive ResultsValue : Type :=
| ResultsArray (results : list NoticeResult)
| ResultsNull
| ResultsBool (b : bool)
| ResultsNumber (x : float)
| ResultsString (s : string)
| ResultsObject.

(** The parsed body: [null], an object with or without a [results]
    property, or another value (a number, a string, a boolean or an array,
    on which reading [results] yields [undefined]). *)
Inductive ResponseData : Type :=
| DataNull
| DataObject (results : option ResultsValue)
| DataOther.

(** [!value]'s operand as a boolean. *)
Definition truthy (value : option ResultsValue) : bool :=
  match value with
  | None => false
  | Some (ResultsArray _) => true
  | Some ResultsNull => false
  | Some (ResultsBool b) => b
  | Some (ResultsNumber x) => Number.toBoolean x
  | Some (ResultsString s) => negb (String.eqb s "")
  | Some ResultsObject => true
  end.

(** [Array.isArray]. *)
Definition isArray (value : option ResultsValue) : bool :=
  match value with
  | Some (ResultsArray _) => true
  | _ => false
  end.

(** The elements of [data.results] where the program slices it, which is
    after [isArray] held. *)
Definition elements (value : option ResultsValue) : list NoticeResult :=
  match value with
  | Some (ResultsArray results) => results
  | _ => []
  end.

(** The [TypeError] Node raises on [data.results] when [data] is [null]. *)
Definition nullPropertyError : Error :=
  mkError "TypeError" "Cannot read properties of null (reading 'results')".

(** The property read [data.results]. *)
Definition readResults (data : ResponseData) : Settled (option ResultsValue) :=
  match data with
  | DataNull => throw nullPropertyError
  | DataObject results => Fulfilled results
  | DataOther => Fulfilled None
  end.

(** [Array.prototype.slice(0, end)]. *)
Definition slice0 {A : Type} (l : list A) (end_ : float) : list A :=
  let len := Z.of_nat (length l) in
  let final :=
    match Number.toIntegerOrInfinity end_ with
    | Number.NegInfinity => 0%Z
    | Number.Finite relativeEnd =>
        if (relativeEnd <? 0)%Z then Z.max (len + relativeEnd) 0
        else Z.min relativeEnd len
    | Number.PosInfinity => len
    end in
  firstn (Z.to_nat final) l.

(** ** The remote endpoint, as [fetch] sees it *)

(** An outbound request; [body] is the object handed to [JSON.stringify]. *)
Record Request : Type := mkRequest {
  requestUrl : string;
  method : string;
  headers : list (string * string);
  body : list (string * json)
}.

Record Response : Type := mkResponse {
  status : nat;
  statusText : string;
  json_ : Settled ResponseData    (* how [response.json()] settles *)
}.

(** [response.ok]: the status is in the range 200-299. *)
Definition ok (response : Response) : bool :=
  ((200 <=? status response) && (status response <=? 299))%nat.

(** What the network does with a request left alone: answer with a response
    (its head) after some milliseconds, fail after some milliseconds, or
    stay silent. *)
Inductive Network : Type :=
| Responds (ms : N) (response : Response)
| Fails (ms : N) (reason : Thrown)
| Silent.

Definition Remote : Type := Request -> Network.

(** The [DOMException] an aborted [fetch] rejects with; it is an instance
    of [Error] in Node. *)
Definition abortError : Error := mkError "AbortError" "This operation was aborted".

(** [fetch(url, {..., signal})] under a timer that calls
    [controller.abort()] after [delay] milliseconds and that is cleared as
    soon as [fetch] fulfils: what the network does first wins, the timer
    otherwise. *)
Definition fetchWithTimeout (remote : Remote) (request : Request) (delay : N)
  : Settled Response :=
  match remote request with
  | Responds ms response =>
      if (ms <? delay)%N then Fulfilled response else throw abortError
  | Fails ms reason =>
      if (ms <? delay)%N then Rejected reason else throw abortError
  | Silent => throw abortError
  end.

(** ** The remote search client *)

Definition searchUrl : string := "https://ai.start-hub.kr/search".
Definition timeoutMs : N := 10000.
Definition timeoutMessage : string := "요청 타임아웃: 검색 서버에서 응답이 없습니다".
Definition malformedMessage : string := "잘못된 응답 형식입니다".
Definition statusMessage (response : Response) : string :=
  ("API 응답 오류: " ++ Str.ofNat (status response) ++ " " ++ statusText response)%string.
Definition otherMessage (stringified : string) : string :=
  ("공고 검색 중 오류 발생: " ++ stringified)%string.

(** The request [searchNotices] sends. *)
Definition searchRequest (query : string) : Request :=
  mkRequest searchUrl "POST" [("Content-Type", "application/json")]
            [("query", JString query)].

(** The body of the [try] block of [searchNotices], once [fetch] settled. *)
Definition searchNoticesTry (fetched : Settled Response) (limit : float)
  : Settled (list NoticeResult) :=
  await response <- fetched ;;
  if negb (ok response) then throw (newError (statusMessage response))
  else
    await data <- json_ response ;;
    await results <- readResults data ;;
    if negb (truthy results) || negb (isArray results)
    then throw (newError malformedMessage)
    else Fulfilled (slice0 (elements results) limit).

(** The [catch] block of [searchNotices]. *)
Definition searchNoticesCatch (error : Thrown) : Settled (list NoticeResult) :=
  match error with
  | ThrownError e =>
      if String.eqb (name e) "AbortError" then throw (newError timeoutMessage)
      else Rejected (ThrownError e)
  | ThrownOther stringified => throw (newError (otherMessage stringified))
  end.

(** [searchNotices(query, limit = 5)]: the requests it sent and how its
    promise settles. *)
Definition searchNotices (remote : Remote) (query : string) (limit : option float)
  : list Request * Settled (list NoticeResult) :=
  let limit := match limit with Some l => l | None => 5%float end in
  let request := searchRequest query in
  ([request],
   catch (searchNoticesTry (fetchWithTimeout remote request timeoutMs) limit)
         searchNoticesCatch).

(** The network has not settled [fetch] when the timer of [timeoutMs] fires. *)
Definition outlastsTimer (network : Network) : bool :=
  match network with
  | Responds ms _ | Fails ms _ => (timeoutMs <=? ms)%N
  | Silent => true
  end.

(** ** The report formatter and the tool handler *)

(** The envelope a tool call answers with.  [isError] is [None] when the
    object has no such property. *)
Record TextContent : Type := mkText {
  type_ : string;
  text : string
}.

Record CallToolResult : Type := mkResult {
  content : list TextContent;
  isError : option bool
}.

(** [request.params] of a tool call; [arguments] is [None] when absent. *)
Record CallToolParams : Type := mkParams {
  toolName : string;
  arguments : option json
}.

Section Server.

(** [Number::toString] of the JavaScript runtime, and the error map of
    zod that words the issues which carry no message of their own. *)
Variable Number_toString : float -> string.
Variable errorMap : Zod.ZodIssueCode -> string.

(** The callback of [results.map] in [formatResults]. *)
Definition formatBlock (result : NoticeResult) (index : nat) : string :=
  let scorePercent := Number.toFixed1 Number_toString (score result * 100)%float in
  (Str.LF ++ "[" ++ Str.ofNat (index + 1) ++ "] " ++ title result ++ Str.LF
   ++ "URL: " ++ url result ++ Str.LF
   ++ "기관: " ++ organization (metadata result) ++ Str.LF
   ++ "지역: " ++ region (metadata result) ++ Str.LF
   ++ "대상: " ++ startupHistory (metadata result) ++ Str.LF
   ++ "유사도: " ++ scorePercent ++ "%")%string.

Definition header (count : nat) : string :=
  ("총 " ++ Str.ofNat count ++ "개의 공고를 찾았습니다." ++ Str.LF
   ++ Str.repeat "=" 60 ++ Str.LF)%string.

Definition divider : string :=
  (Str.LF ++ Str.LF ++ Str.repeat "-" 60 ++ Str.LF)%string.

Definition noResultsMessage (query : string) : string :=
  (Str.DQUOTE ++ query ++ Str.DQUOTE ++ "에 대한 검색 결과가 없습니다.")%string.

Definition formatResults (results : list NoticeResult) (query : string) : string :=
  if (length results =? 0)%nat then noResultsMessage query
  else
    let formatted := Str.join divider (Str.mapi formatBlock results) in
    (header (length results) ++ formatted)%string.

(** [e.message] of a zod issue. *)
Definition issueMessage (e : Zod.ZodIssue) : string :=
  match Zod.customMessage e with
  | Some message => message
  | None => errorMap (Zod.code e)
  end.

Definition invalidArgumentsMessage (errors : list Zod.ZodIssue) : string :=
  let errorMessages :=
    Str.join ", "
      (map (fun e => (Str.join "." (Zod.path e) ++ ": " ++ issueMessage e)%string) errors) in
  ("잘못된 인자: " ++ errorMessages)%string.

Definition unknownToolMessage (name : string) : string :=
  ("알 수 없는 도구: " ++ name)%string.

Definition textBlock (s : string) : TextContent := mkText "text" s.

(** The [try] block of the handler. *)
Definition callToolTry (remote : Remote) (params : CallToolParams)
  : list Request * Settled CallToolResult :=
  let name := toolName params in
  let args := arguments params in
  if String.eqb name "search_notices" then
    match Zod.safeParse SearchNoticeArgsSchema args with
    | Zod.SafeParseError errors =>
        ([], throw (newError (invalidArgumentsMessage errors)))
    | Zod.SafeParseSuccess data =>
        let (sent, searched) := searchNotices remote (query data) (limit data) in
        (sent,
         await results <- searched ;;
         let formatted := formatResults results (query data) in
         Fulfilled (mkResult [textBlock formatted] None))
    end
  else ([], throw (newError (unknownToolMessage name))).

(** The [catch] block of the handler. *)
Definition callToolCatch (error : Thrown) : Settled CallToolResult :=
  let errorMessage :=
    match error with
    | ThrownError e => message e
    | ThrownOther stringified => stringified
    end in
  Fulfilled (mkResult [textBlock ("오류: " ++ errorMessage)%string] (Some true)).

(** The [CallToolRequestSchema] handler: the requests sent and how the
    promise it returns settles. *)
Definition callTool (remote : Remote) (params : CallToolParams)
  : list Request * Settled CallToolResult :=
  let (sent, attempt) := callToolTry remote params in
  (sent, catch attempt callToolCatch).

End Server.

(** A rendering with exactly one decimal digit: an optional sign, at least
    one digit, the point, one digit. *)
Definition oneDecimalDigit (s : string) : Prop :=
  exists (sign whole : string) (d : ascii),
    s = (sign ++ whole ++ "." ++ String d EmptyString)%string
    /\ (sign = EmptyString \/ sign = "-")
    /\ whole <> EmptyString
    /\ Str.allDigits whole = true
    /\ Str.isDigit d = true.

(** Whether a string holds the decimal point. *)
Fixpoint hasPoint (s : string) : bool :=
  match s with
  | EmptyString => false
  | String c rest => Ascii.eqb c "." || hasPoint rest
  end.

(** [error.message] for an [Error], [String(error)] for anything else. *)
Definition thrownMessage (error : Thrown) : string :=
  match error with
  | ThrownError e => message e
  | ThrownOther stringified => stringified
  end.

(** ** Sample data for the closed statements below *)

Module Sample.

(** Stand-ins for the runtime's [Number::toString], which no sample
    reaches, and for zod's error map. *)
Definition Number_toString (x : float) : string := "1e+21".

Definition errorMap (code : Zod.ZodIssueCode) : string :=
  match code with
  | Zod.invalid_type _ Zod.undefined => "Required"
  | Zod.invalid_type _ _ => "Invalid type"
  | Zod.too_small _ _ _ => "Too small"
  | Zod.too_big _ _ _ => "Too big"
  end.

Definition grantA (score : float) : NoticeResult :=
  mkNoticeResult "Grant A" "http://x" score (mkMetadata "Org" "Seoul" "2yr").

Definition ranked : list NoticeResult :=
  [grantA 0.9; grantA 0.873; grantA 0.5; grantA 0.25; grantA 0.1].

(** A remote that answers every request after 120 ms with the given
    status and body. *)
Definition answering (status : nat) (statusText : string) (data : Settled ResponseData)
  : Remote :=
  fun _ => Responds 120 (mkResponse status statusText data).

Definition healthy : Remote :=
  answering 200 "OK" (Fulfilled (DataObject (Some (ResultsArray ranked)))).

Definition nullBody : Remote := answering 200 "OK" (Fulfilled DataNull).

Definition notAnArray : Remote :=
  answering 200 "OK" (Fulfilled (DataObject (Some (ResultsString "not-an-array")))).

Definition silent : Remote := fun _ => Silent.

Definition failing (reason : Thrown) : Remote := fun _ => Fails 5 reason.

Definition seoul : CallToolParams :=
  mkParams "search_notices"
    (Some (JObject [("query", JString "Seoul accelerator"); ("limit", JNumber 2)])).

Definition withExtras : list (string * json) :=
  [("verbose", JBool true); ("query", JString "grants");
   ("page", JNumber 3); ("limit", JNumber 7)].

End Sample.

(** ** The tool list *)

Module Tool.

(** An entry of the [tools] array the list handler returns. *)
Record t : Type := mk {
  name : string;
  description : string;
  inputSchema : json
}.

End Tool.

(** The [ListToolsRequestSchema] handler; [inputSchema] stands for
    [zodToJsonSchema(SearchNoticeArgsSchema)], which the library computes. *)
Definition listTools (inputSchema : json) : list Tool.t :=
  [Tool.mk "search_notices"
     ("사용자의 요청과 관련된 스타트업 공고를 검색합니다. "
      ++ "키워드나 조건을 포함한 자연스러운 쿼리를 입력하면 "
      ++ "유사한 공고들을 찾아 반환합니다. "
      ++ "예: '서울에서 열리는 공고', '기술 스타트업 지원', '멘토링 프로그램'")%string
     inputSchema].

(** ** A table of the doubles that hold 1 to 50 *)

(** Two finite doubles with the same sign, mantissa and exponent. *)
Definition sameFinite (a b : spec_float) : bool :=
  match a, b with
  | S754_finite s m e, S754_finite s' m' e' =>
      Bool.eqb s s' && Pos.eqb m m' && Z.eqb e e'
  | _, _ => false
  end.

(** For [z] from 1 to 50 and [k] from 47 to 52: when [2^k * z] has 53 bits,
    it is the mantissa of the double holding [z], with exponent [-k]. *)
Definition smallIntegersTable : bool :=
  forallb (fun z =>
    forallb (fun k =>
      let m := (2 ^ k * z)%Z in
      if ((2 ^ 52 <=? m) && (m <? 2 ^ 53))%Z
      then sameFinite (Prim2SF (Number.ofZ z)) (S754_finite false (Z.to_pos m) (- k))
      else true)
      (map Z.of_nat (seq 47 6)))
    (map Z.of_nat (seq 1 50)).

(** More sample data. *)
Module Sample2.

Definition serverError : Remote :=
  Sample.answering 500 "Internal Server Error" Pending.

Definition stalledBody : Remote := Sample.answering 200 "OK" Pending.

Definition noResults : Remote :=
  Sample.answering 200 "OK" (Fulfilled (DataObject (Some (ResultsArray [])))).

Definition bothInvalid : list (string * json) :=
  [("query", JString ""); ("limit", JNumber 0)].

Definition grants : CallToolParams :=
  mkParams "search_notices" (Some (JObject [("query", JString "grants")])).

(** Three results, the second with an infinite score. *)
Definition mixed : list NoticeResult :=
  [Sample.grantA 0.873; Sample.grantA infinity; Sample.grantA 0.5].

End Sample2.

(** * Properties *)

(** ** Numbers and strings *)

(** The doubles holding 1 to 50 are integers, lie within the bounds of the
    schema and truncate to themselves. *)
Lemma ofZ_in_range (z : Z) :
  (1 <= z <= 50)%Z ->
  Number.isNaN (Number.ofZ z) = false
  /\ Number.isInteger (Number.ofZ z) = true
  /\ (Number.ofZ z <? 1)%float = false
  /\ (50 <? Number.ofZ z)%float = false
  /\ Number.toIntegerOrInfinity (Number.ofZ z) = Number.Finite z.
Proof.
  intros Hz.
  destruct z as [|p|p]; try lia.
  do 6 (try (destruct p as [p|p|]; try lia));
    vm_compute; repeat split; reflexivity.
Qed.

Lemma string_app_assoc (a b c : string) :
  ((a ++ b) ++ c = a ++ (b ++ c))%string.
Proof.
  induction a as [|x a IH]; simpl; [reflexivity|]. now rewrite IH.
Qed.

Lemma allDigits_uint (d : Decimal.uint) :
  Str.allDigits (NilEmpty.string_of_uint d) = true.
Proof. induction d; simpl; auto. Qed.

Lemma uint_string_nonempty (d : Decimal.uint) :
  d <> Decimal.Nil -> NilEmpty.string_of_uint d <> EmptyString.
Proof. destruct d; simpl; congruence. Qed.

Lemma ofN_digits (n : N) : Str.allDigits (Str.ofN n) = true.
Proof. apply allDigits_uint. Qed.

Lemma ofN_nonempty (n : N) : Str.ofN n <> EmptyString.
Proof.
  apply uint_string_nonempty. destruct n as [|p]; simpl.
  - discriminate.
  - apply DecimalPos.Unsigned.to_uint_nonnil.
Qed.

(** A number below ten prints as one digit. *)
Lemma ofN_one_digit (n : N) :
  (n < 10)%N -> exists d, Str.ofN n = String d EmptyString /\ Str.isDigit d = true.
Proof.
  intros Hn.
  destruct n as [|p]; [eexists; split; reflexivity|].
  do 4 (try (destruct p as [p|p|]; try lia));
    eexists; split; reflexivity.
Qed.


(** ** The remote search client *)

(** How [searchNotices] settles is decided by the [try] block over the
    settled [fetch], then by the [catch] block. *)
Lemma searchNotices_settles (remote : Remote) (query : string) (limit : option float) :
  snd (searchNotices remote query limit)
  = catch (searchNoticesTry
             (fetchWithTimeout remote (searchRequest query) timeoutMs)
             (match limit with Some l => l | None => 5%float end))
          searchNoticesCatch.
Proof. reflexivity. Qed.

(** A 2xx answer that arrives before the timer and carries an array is
    sliced. *)
Lemma searchNotices_fulfilled (remote : Remote) (query : string) (limit : option float)
  (ms : N) (response : Response) (supplied : list NoticeResult) :
  remote (searchRequest query) = Responds ms response ->
  (ms < timeoutMs)%N ->
  ok response = true ->
  json_ response = Fulfilled (DataObject (Some (ResultsArray supplied))) ->
  snd (searchNotices remote query limit)
  = Fulfilled (slice0 supplied (match limit with Some l => l | None => 5%float end)).
Proof.
  intros Hnet Hms Hok Hjson.
  rewrite searchNotices_settles. unfold fetchWithTimeout.
  rewrite Hnet. apply N.ltb_lt in Hms. rewrite Hms.
  unfold searchNoticesTry. simpl. rewrite Hok, Hjson. reflexivity.
Qed.

(** [slice(0, end)] with a non-negative integer [end] keeps the first
    [min(end, length)] elements. *)
Lemma slice0_firstn {A : Type} (l : list A) (end_ : float) (z : Z) :
  Number.toIntegerOrInfinity end_ = Number.Finite z ->
  (0 <= z)%Z ->
  slice0 l end_ = firstn (Nat.min (Z.to_nat z) (length l)) l.
Proof.
  intros Hend Hz. unfold slice0. rewrite Hend.
  destruct (Z.ltb_spec z 0) as [Hneg|_]; [lia|].
  f_equal. lia.
Qed.

(** C1. For a valid limit (an integer from 1 to 50) and any array of
    results that the endpoint supplies in a successful answer,
    [searchNotices] returns exactly the first [min(limit, length)] entries:
    a prefix of the supplied array, in its order, never longer than
    [limit]; what lies beyond is dropped and nothing is thrown. *)
Theorem searchNotices_returns_prefix
  (remote : Remote) (query : string) (z : Z) (ms : N) (response : Response)
  (supplied : list NoticeResult) :
  (1 <= z <= 50)%Z ->
  remote (searchRequest query) = Responds ms response ->
  (ms < timeoutMs)%N ->
  ok response = true ->
  json_ response = Fulfilled (DataObject (Some (ResultsArray supplied))) ->
  exists returned discarded : list NoticeResult,
    snd (searchNotices remote query (Some (Number.ofZ z))) = Fulfilled returned
    /\ returned = firstn (Nat.min (Z.to_nat z) (length supplied)) supplied
    /\ length returned = Nat.min (Z.to_nat z) (length supplied)
    /\ (length returned <= Z.to_nat z)%nat
    /\ supplied = returned ++ discarded.
Proof.
  intros Hz Hnet Hms Hok Hjson.
  destruct (ofZ_in_range z Hz) as (_ & _ & _ & _ & Hint).
  set (n := Nat.min (Z.to_nat z) (length supplied)).
  exists (firstn n supplied), (skipn n supplied).
  assert (Hlen : length (firstn n supplied) = n).
  { rewrite length_firstn. subst n. lia. }
  repeat split.
  - rewrite (searchNotices_fulfilled remote query _ ms response supplied Hnet Hms Hok Hjson).
    f_equal. apply slice0_firstn with (z := z); [exact Hint | lia].
  - exact Hlen.
  - rewrite Hlen. subst n. lia.
  - symmetry. apply firstn_skipn.
Qed.

Lemma searchNotices_returns_prefix_witness :
  exists returned discarded : list NoticeResult,
    snd (searchNotices Sample.healthy "Seoul accelerator" (Some (Number.ofZ 2)))
    = Fulfilled returned
    /\ returned = firstn (Nat.min (Z.to_nat 2) (length Sample.ranked)) Sample.ranked
    /\ length returned = Nat.min (Z.to_nat 2) (length Sample.ranked)
    /\ (length returned <= Z.to_nat 2)%nat
    /\ Sample.ranked = returned ++ discarded.
Proof.
  apply (searchNotices_returns_prefix Sample.healthy "Seoul accelerator" 2 120
           (mkResponse 200 "OK" (Fulfilled (DataObject (Some (ResultsArray Sample.ranked)))))
           Sample.ranked).
  - lia.
  - reflexivity.
  - reflexivity.
  - reflexivity.
  - reflexivity.
Defined.

(** C8. Every call of [searchNotices] sends exactly one request: a POST to
    the fixed endpoint whose body is the object with the single member
    [query].  The limit is no part of the request: the request is the same
    for every limit. *)
Theorem searchNotices_sends_one_post (remote : Remote) (query : string) (limit : option float) :
  fst (searchNotices remote query limit)
  = [mkRequest "https://ai.start-hub.kr/search" "POST"
       [("Content-Type", "application/json")] [("query", JString query)]]
  /\ length (fst (searchNotices remote query limit)) = 1%nat
  /\ (forall request, In request (fst (searchNotices remote query limit)) ->
        map fst (body request) = ["query"] /\ getMember "limit" (body request) = None)
  /\ (forall limit', fst (searchNotices remote query limit')
                     = fst (searchNotices remote query limit)).
Proof.
  repeat split.
  - destruct H as [<-|[]]. reflexivity.
  - destruct H as [<-|[]]. reflexivity.
Qed.

(** X1. A 2xx answer in time whose body is not [null] and whose [results]
    is absent or is not an array is refused as malformed. *)
Lemma searchNotices_rejects_malformed (remote : Remote) (query : string)
  (limit : option float) (ms : N) (response : Response) (data : ResponseData)
  (results : option ResultsValue) :
  remote (searchRequest query) = Responds ms response ->
  (ms < timeoutMs)%N ->
  ok response = true ->
  json_ response = Fulfilled data ->
  readResults data = Fulfilled results ->
  isArray results = false ->
  snd (searchNotices remote query limit) = Rejected (ThrownError (newError malformedMessage)).
Proof.
  intros Hnet Hms Hok Hjson Hread Harr.
  rewrite searchNotices_settles. unfold fetchWithTimeout.
  rewrite Hnet. apply N.ltb_lt in Hms. rewrite Hms.
  unfold searchNoticesTry. simpl. rewrite Hok, Hjson. simpl.
  rewrite Hread. simpl. rewrite Harr, orb_true_r. reflexivity.
Qed.

(** The body [{"results": "not-an-array"}] is refused as malformed. *)
Lemma searchNotices_rejects_not_an_array :
  snd (searchNotices Sample.notAnArray "grants" None)
  = Rejected (ThrownError (newError malformedMessage)).
Proof.
  apply (searchNotices_rejects_malformed Sample.notAnArray "grants" None 120
           (mkResponse 200 "OK" (Fulfilled (DataObject (Some (ResultsString "not-an-array")))))
           (DataObject (Some (ResultsString "not-an-array")))
           (Some (ResultsString "not-an-array")));
    reflexivity.
Defined.

(** C6. On the 2xx body [null], which has no [results] field, the property
    read itself throws: [searchNotices] rejects with that [TypeError], whose
    message is not the malformed-response message. *)
Theorem searchNotices_null_body (query : string) (limit : option float) :
  snd (searchNotices Sample.nullBody query limit) = Rejected (ThrownError nullPropertyError)
  /\ name nullPropertyError = "TypeError"
  /\ message nullPropertyError <> malformedMessage.
Proof.
  repeat split. discriminate.
Qed.

Lemma fetchWithTimeout_aborts (remote : Remote) (request : Request) :
  outlastsTimer (remote request) = true ->
  fetchWithTimeout remote request timeoutMs = Rejected (ThrownError abortError).
Proof.
  unfold outlastsTimer, fetchWithTimeout.
  destruct (remote request) as [ms r|ms e|]; intros H; try reflexivity;
    apply N.leb_le in H; destruct (N.ltb_spec ms timeoutMs); try lia; reflexivity.
Qed.

(** C7. The timer is armed for 10000 ms.  What the network does before
    that is delivered as it is: a response that arrives earlier fulfils
    [fetch], so a 2xx answer with an array is returned sliced and a bad
    status is reported as such, and a network failure that is no
    [AbortError] is rethrown.  The expiry of the timer aborts the pending
    [fetch]: a call the network has not settled after 10000 ms, or never
    settles, rejects with the timeout message.  So does every call that
    fails with an [AbortError], from [fetch] or while reading the body.
    The timeout message differs from the messages for a bad status, a
    malformed body and a thrown value that is no [Error]. *)
Theorem searchNotices_timeout (remote : Remote) (query : string) (limit : option float) :
  (forall ms response,
      remote (searchRequest query) = Responds ms response ->
      (ms < 10000)%N ->
      fetchWithTimeout remote (searchRequest query) timeoutMs = Fulfilled response
      /\ (forall supplied,
            ok response = true ->
            json_ response = Fulfilled (DataObject (Some (ResultsArray supplied))) ->
            snd (searchNotices remote query limit)
            = Fulfilled (slice0 supplied
                           (match limit with Some l => l | None => 5%float end)))
      /\ (ok response = false ->
          snd (searchNotices remote query limit)
          = Rejected (ThrownError (newError (statusMessage response)))))
  /\ (forall ms e,
        remote (searchRequest query) = Fails ms (ThrownError e) ->
        (ms < 10000)%N ->
        name e <> "AbortError" ->
        snd (searchNotices remote query limit) = Rejected (ThrownError e))
  /\ (forall ms response,
        remote (searchRequest query) = Responds ms response ->
        (10000 <= ms)%N ->
        fetchWithTimeout remote (searchRequest query) timeoutMs
        = Rejected (ThrownError abortError)
        /\ snd (searchNotices remote query limit)
           = Rejected (ThrownError (newError timeoutMessage)))
  /\ (forall ms reason,
        remote (searchRequest query) = Fails ms reason ->
        (10000 <= ms)%N ->
        fetchWithTimeout remote (searchRequest query) timeoutMs
        = Rejected (ThrownError abortError)
        /\ snd (searchNotices remote query limit)
           = Rejected (ThrownError (newError timeoutMessage)))
  /\ (remote (searchRequest query) = Silent ->
      fetchWithTimeout remote (searchRequest query) timeoutMs
      = Rejected (ThrownError abortError)
      /\ snd (searchNotices remote query limit)
         = Rejected (ThrownError (newError timeoutMessage)))
  /\ (forall ms e, remote (searchRequest query) = Fails ms (ThrownError e) ->
        name e = "AbortError" ->
        snd (searchNotices remote query limit)
        = Rejected (ThrownError (newError timeoutMessage)))
  /\ (forall ms response e, remote (searchRequest query) = Responds ms response ->
        (ms < 10000)%N -> ok response = true ->
        json_ response = Rejected (ThrownError e) ->
        name e = "AbortError" ->
        snd (searchNotices remote query limit)
        = Rejected (ThrownError (newError timeoutMessage)))
  /\ (forall response, timeoutMessage <> statusMessage response)
  /\ timeoutMessage <> malformedMessage
  /\ (forall stringified, timeoutMessage <> otherMessage stringified).
Proof.
  assert (Hexpired : outlastsTimer (remote (searchRequest query)) = true ->
    fetchWithTimeout remote (searchRequest query) timeoutMs
    = Rejected (ThrownError abortError)
    /\ snd (searchNotices remote query limit)
       = Rejected (ThrownError (newError timeoutMessage))).
  { intros Hout. split; [now apply fetchWithTimeout_aborts|].
    rewrite searchNotices_settles, (fetchWithTimeout_aborts _ _ Hout).
    reflexivity. }
  split; [|split; [|split; [|split; [|split; [|split; [|split; [|split; [|split]]]]]]]].
  - intros ms response Hnet Hms.
    assert (Hfetch : fetchWithTimeout remote (searchRequest query) timeoutMs
                     = Fulfilled response).
    { unfold fetchWithTimeout. rewrite Hnet.
      apply N.ltb_lt in Hms. unfold timeoutMs. now rewrite Hms. }
    split; [exact Hfetch|]. split.
    + intros supplied Hok Hjson.
      now apply (searchNotices_fulfilled remote query limit ms response supplied).
    + intros Hok. rewrite searchNotices_settles, Hfetch.
      unfold searchNoticesTry. simpl. rewrite Hok. reflexivity.
  - intros ms e Hnet Hms Hname.
    rewrite searchNotices_settles. unfold fetchWithTimeout. rewrite Hnet.
    apply N.ltb_lt in Hms. unfold timeoutMs. rewrite Hms. simpl.
    apply String.eqb_neq in Hname. rewrite Hname. reflexivity.
  - intros ms response Hnet Hms. apply Hexpired. rewrite Hnet. simpl.
    now apply N.leb_le.
  - intros ms reason Hnet Hms. apply Hexpired. rewrite Hnet. simpl.
    now apply N.leb_le.
  - intros Hnet. apply Hexpired. now rewrite Hnet.
  - intros ms e Hnet Hname.
    rewrite searchNotices_settles. unfold fetchWithTimeout. rewrite Hnet.
    destruct (ms <? timeoutMs)%N; simpl; [rewrite Hname|]; reflexivity.
  - intros ms response e Hnet Hms Hok Hjson Hname.
    rewrite searchNotices_settles. unfold fetchWithTimeout. rewrite Hnet.
    apply N.ltb_lt in Hms. unfold timeoutMs. rewrite Hms.
    unfold searchNoticesTry. simpl. rewrite Hok, Hjson. simpl.
    rewrite Hname. reflexivity.
  - intros response. unfold timeoutMessage, statusMessage. simpl. discriminate.
  - discriminate.
  - intros stringified. unfold timeoutMessage, otherMessage. simpl. discriminate.
Qed.

(** C9, as the code has it. A failure of the call in time that is an
    [Error] not named [AbortError] is rethrown as it is, message and all,
    whether [fetch] or the reading of the body raised it; a thrown value
    that is no [Error] becomes an [Error] whose message is
    ["공고 검색 중 오류 발생: "] followed by the stringified value. *)
Theorem searchNotices_other_failures
  (remote : Remote) (query : string) (limit : option float) (ms : N) :
  (ms < timeoutMs)%N ->
  (forall e, remote (searchRequest query) = Fails ms (ThrownError e) ->
     name e <> "AbortError" ->
     snd (searchNotices remote query limit) = Rejected (ThrownError e))
  /\ (forall stringified, remote (searchRequest query) = Fails ms (ThrownOther stringified) ->
        snd (searchNotices remote query limit)
        = Rejected (ThrownError
                      (newError ("공고 검색 중 오류 발생: " ++ stringified)%string)))
  /\ (forall response e, remote (searchRequest query) = Responds ms response ->
        ok response = true -> json_ response = Rejected (ThrownError e) ->
        name e <> "AbortError" ->
        snd (searchNotices remote query limit) = Rejected (ThrownError e))
  /\ (forall response stringified, remote (searchRequest query) = Responds ms response ->
        ok response = true -> json_ response = Rejected (ThrownOther stringified) ->
        snd (searchNotices remote query limit)
        = Rejected (ThrownError
                      (newError ("공고 검색 중 오류 발생: " ++ stringified)%string))).
Proof.
  intros Hms. apply N.ltb_lt in Hms.
  repeat split.
  - intros e Hnet Hname.
    rewrite searchNotices_settles. unfold fetchWithTimeout. rewrite Hnet, Hms.
    simpl. apply String.eqb_neq in Hname. rewrite Hname. reflexivity.
  - intros s Hnet.
    rewrite searchNotices_settles. unfold fetchWithTimeout. rewrite Hnet, Hms.
    reflexivity.
  - intros response e Hnet Hok Hjson Hname.
    rewrite searchNotices_settles. unfold fetchWithTimeout. rewrite Hnet, Hms.
    unfold searchNoticesTry. simpl. rewrite Hok, Hjson. simpl.
    apply String.eqb_neq in Hname. rewrite Hname. reflexivity.
  - intros response s Hnet Hok Hjson.
    rewrite searchNotices_settles. unfold fetchWithTimeout. rewrite Hnet, Hms.
    unfold searchNoticesTry. simpl. rewrite Hok, Hjson. reflexivity.
Qed.

Lemma searchNotices_other_failures_witness :
  snd (searchNotices (Sample.failing (ThrownOther "boom")) "grants" None)
  = Rejected (ThrownError (newError ("공고 검색 중 오류 발생: " ++ "boom")%string)).
Proof.
  apply (searchNotices_other_failures (Sample.failing (ThrownOther "boom")) "grants" None 5).
  - reflexivity.
  - reflexivity.
Defined.

(** C9 as the spec words it fails: when [fetch] rejects with the string
    ["boom"], the message of the raised error is not the stringification
    ["boom"] of the thrown value. *)
Lemma searchNotices_stringified_is_prefixed :
  exists e, snd (searchNotices (Sample.failing (ThrownOther "boom")) "grants" None)
            = Rejected (ThrownError e)
            /\ message e <> "boom".
Proof.
  eexists. split; [reflexivity|]. discriminate.
Qed.


(** ** The argument validator *)

(** The schema of an object looks at the members [query] and [limit] and
    at nothing else. *)
Lemma parseArgs_unfold (members : list (string * json)) :
  parseArgs members
  = match querySchema ["query"] (getMember "query" members),
          limitSchema ["limit"] (getMember "limit" members) with
    | (issues1, r1), (issues2, r2) =>
        match Zod.mergeObject mkArgs r1 r2 with
        | Zod.OK value => Zod.SafeParseSuccess value
        | _ => Zod.SafeParseError (issues1 ++ issues2)
        end
    end.
Proof.
  unfold parseArgs, Zod.safeParse, SearchNoticeArgsSchema, Zod.ZodObject. simpl.
  destruct (querySchema ["query"] (getMember "query" members)) as [i1 r1].
  destruct (limitSchema ["limit"] (getMember "limit" members)) as [i2 r2].
  reflexivity.
Qed.

(** An issue on [limit] fails the whole parse, whatever [query] is. *)
Lemma parseArgs_limit_issue (members : list (string * json))
  (issue : Zod.ZodIssue) (issues : list Zod.ZodIssue) (r : Zod.ParseReturn (option float)) :
  limitSchema ["limit"] (getMember "limit" members) = (issue :: issues, r) ->
  (forall value, r <> Zod.OK value) ->
  rejected (parseArgs members).
Proof.
  intros Hlimit Hr. rewrite parseArgs_unfold, Hlimit.
  destruct (querySchema ["query"] (getMember "query" members)) as [i1 r1].
  assert (Hne : exists x xs, i1 ++ issue :: issues = x :: xs).
  { destruct i1; simpl; eauto. }
  destruct Hne as (x & xs & ->).
  destruct r1, r as [v|v|]; simpl; try (exfalso; eapply Hr; reflexivity);
    exists x, xs; reflexivity.
Qed.

(** An issue on [query] fails the whole parse, whatever [limit] is. *)
Lemma parseArgs_query_issue (members : list (string * json))
  (issue : Zod.ZodIssue) (issues : list Zod.ZodIssue) (r : Zod.ParseReturn string) :
  querySchema ["query"] (getMember "query" members) = (issue :: issues, r) ->
  (forall value, r <> Zod.OK value) ->
  rejected (parseArgs members).
Proof.
  intros Hquery Hr. rewrite parseArgs_unfold, Hquery.
  destruct (limitSchema ["limit"] (getMember "limit" members)) as [i2 r2].
  destruct r as [v|v|], r2; simpl; try (exfalso; eapply Hr; reflexivity);
    eexists _, _; reflexivity.
Qed.

(** A limit that is not an integer number draws an issue. *)
Lemma limitSchema_not_integer (path : list string) (v : json) :
  (forall x, v = JNumber x -> Number.isInteger x = false) ->
  exists issue issues r,
    limitSchema path (Some v) = (issue :: issues, r) /\ forall value, r <> Zod.OK value.
Proof.
  intros Hv. unfold limitSchema, Zod.ZodDefault, Zod.ZodOptional, Zod.ZodNumber.
  destruct v as [|b|x|s|items|members];
    try (eexists _, _, _; split; [reflexivity | discriminate]).
  destruct (Number.isNaN x);
    [eexists _, _, _; split; [reflexivity | discriminate]|].
  simpl. rewrite (Hv x eq_refl). simpl.
  eexists _, _, _; split; [reflexivity | discriminate].
Qed.

(** A non-empty string as [query] parses to itself. *)
Lemma querySchema_accepts (path : list string) (q : string) :
  (1 <= String.length q)%nat ->
  querySchema path (Some (JString q)) = ([], Zod.OK q).
Proof.
  intros Hq. unfold querySchema, Zod.ZodString. simpl.
  destruct (Nat.ltb_spec (String.length q) 1); [lia | reflexivity].
Qed.

(** An integer from 1 to 50 as [limit] parses to itself. *)
Lemma limitSchema_accepts (path : list string) (z : Z) :
  (1 <= z <= 50)%Z ->
  limitSchema path (Some (JNumber (Number.ofZ z))) = ([], Zod.OK (Some (Number.ofZ z))).
Proof.
  intros Hz. destruct (ofZ_in_range z Hz) as (Hnan & Hint & Hmin & Hmax & _).
  unfold limitSchema, Zod.ZodDefault, Zod.ZodOptional, Zod.ZodNumber.
  rewrite Hnan. simpl. rewrite Hint, Hmin, Hmax. reflexivity.
Qed.

(** A non-empty query is accepted with no limit, which becomes 5, and
    with an integer limit from 1 to 50. *)
Lemma validator_accepts (members : list (string * json)) (q : string) :
  getMember "query" members = Some (JString q) ->
  (1 <= String.length q)%nat ->
  (getMember "limit" members = None ->
   parseArgs members = Zod.SafeParseSuccess (mkArgs q (Some 5%float)))
  /\ (forall z, (1 <= z <= 50)%Z ->
        getMember "limit" members = Some (JNumber (Number.ofZ z)) ->
        parseArgs members = Zod.SafeParseSuccess (mkArgs q (Some (Number.ofZ z)))).
Proof.
  intros Hq Hlen. split.
  - intros Hl.
    rewrite parseArgs_unfold, Hq, Hl, (querySchema_accepts _ q Hlen). reflexivity.
  - intros z Hz Hl.
    rewrite parseArgs_unfold, Hq, Hl, (querySchema_accepts _ q Hlen),
      (limitSchema_accepts _ z Hz).
    reflexivity.
Qed.

(** C4. The validator rejects the limits 0 and 51, every limit that is not
    an integer number, and the empty query; it accepts a non-empty string
    query with no limit, which it sets to 5, or with an integer limit from
    1 to 50, and returns the query and the limit as the normalized
    request. *)
Theorem validator_rejects_and_accepts (members : list (string * json)) :
  (getMember "limit" members = Some (JNumber 0) -> rejected (parseArgs members))
  /\ (getMember "limit" members = Some (JNumber 51) -> rejected (parseArgs members))
  /\ (forall v, getMember "limit" members = Some v ->
        (forall x, v = JNumber x -> Number.isInteger x = false) ->
        rejected (parseArgs members))
  /\ (getMember "query" members = Some (JString "") -> rejected (parseArgs members))
  /\ (forall q, getMember "query" members = Some (JString q) ->
        (1 <= String.length q)%nat ->
        getMember "limit" members = None ->
        parseArgs members = Zod.SafeParseSuccess (mkArgs q (Some 5%float)))
  /\ (forall q z, getMember "query" members = Some (JString q) ->
        (1 <= String.length q)%nat ->
        (1 <= z <= 50)%Z ->
        getMember "limit" members = Some (JNumber (Number.ofZ z)) ->
        parseArgs members = Zod.SafeParseSuccess (mkArgs q (Some (Number.ofZ z)))).
Proof.
  split; [|split; [|split; [|split; [|split]]]].
  - intros H. eapply parseArgs_limit_issue; [rewrite H; reflexivity | discriminate].
  - intros H. eapply parseArgs_limit_issue; [rewrite H; reflexivity | discriminate].
  - intros v H Hv.
    destruct (limitSchema_not_integer ["limit"] v Hv) as (issue & issues & r & Hl & Hr).
    eapply parseArgs_limit_issue; [rewrite H; exact Hl | exact Hr].
  - intros H. eapply parseArgs_query_issue; [rewrite H; reflexivity | discriminate].
  - intros q Hq Hlen Hl. now apply (validator_accepts members q Hq Hlen).
  - intros q z Hq Hlen Hz Hl. now apply (validator_accepts members q Hq Hlen).
Qed.

Lemma getMember_declaredOnly (key : string) (members : list (string * json)) :
  declaredKey key = true ->
  getMember key (declaredOnly members) = getMember key members.
Proof.
  intros Hkey. induction members as [|[k v] rest IH]; simpl; [reflexivity|].
  destruct (String.eqb_spec k key) as [->|Hne].
  - rewrite Hkey. simpl. rewrite String.eqb_refl. reflexivity.
  - destruct (declaredKey k); simpl; [|exact IH].
    apply String.eqb_neq in Hne. rewrite Hne. exact IH.
Qed.

(** Members under other keys change nothing in what the validator returns,
    issues included. *)
Lemma parseArgs_ignores_unknown (members : list (string * json)) :
  parseArgs members = parseArgs (declaredOnly members).
Proof.
  rewrite !parseArgs_unfold.
  now rewrite !getMember_declaredOnly by reflexivity.
Qed.

(** ** The report formatter *)

Lemma mapiFrom_length {A B : Type} (f : A -> nat -> B) (start : nat) (l : list A) :
  length (Str.mapiFrom f start l) = length l.
Proof.
  revert start. induction l as [|x l IH]; intros start; simpl; [reflexivity|].
  now rewrite IH.
Qed.

Lemma mapiFrom_nth_error {A B : Type} (f : A -> nat -> B) (start : nat) (l : list A)
  (i : nat) (x : A) :
  nth_error l i = Some x ->
  nth_error (Str.mapiFrom f start l) i = Some (f x (start + i)%nat).
Proof.
  revert start i. induction l as [|y l IH]; intros start [|i]; simpl; try discriminate.
  - intros [= ->]. now rewrite Nat.add_0_r.
  - intros H. rewrite (IH (S start) i H). f_equal. f_equal. lia.
Qed.

(** The integer [nearestTenths] picks for a double with a fractional part
    is the nearest to ten times its magnitude, the upper one on a tie. *)
Lemma nearestTenths_nearest (m : positive) (e : Z) :
  (e < 0)%Z ->
  let n := Number.nearestTenths m e in
  (2 * 2 ^ (- e) * n <= 20 * Z.pos m + 2 ^ (- e) < 2 * 2 ^ (- e) * (n + 1))%Z.
Proof.
  intros He n. subst n. unfold Number.nearestTenths.
  destruct (Z.leb_spec 0 e) as [H|_]; [lia|].
  assert (Hpow : (0 < 2 ^ (- e))%Z) by (apply Z.pow_pos_nonneg; lia).
  set (P := (2 ^ (- e))%Z) in *.
  pose proof (Z.mul_div_le (20 * Z.pos m + P) (2 * P)) as Hle.
  pose proof (Z.mul_succ_div_gt (20 * Z.pos m + P) (2 * P)) as Hgt.
  unfold Z.succ in Hgt. split; [apply Hle | apply Hgt]; lia.
Qed.

Lemma nearestTenths_nonneg (m : positive) (e : Z) : (0 <= Number.nearestTenths m e)%Z.
Proof.
  unfold Number.nearestTenths. destruct (Z.leb_spec 0 e) as [H|H].
  - assert (0 <= 2 ^ e)%Z by (apply Z.pow_nonneg; lia). nia.
  - assert (0 < 2 ^ (- e))%Z by (apply Z.pow_pos_nonneg; lia).
    apply Z.div_pos; lia.
Qed.

Lemma tenthsToString_oneDecimal (sign : string) (n : Z) :
  (0 <= n)%Z ->
  sign = EmptyString \/ sign = "-" ->
  oneDecimalDigit (sign ++ Number.tenthsToString n).
Proof.
  intros Hn Hsign.
  destruct (ofN_one_digit (Z.to_N (n mod 10))) as (d & Hd & Hdigit).
  { pose proof (Z.mod_pos_bound n 10). lia. }
  exists sign, (Str.ofN (Z.to_N (n / 10))), d.
  unfold Number.tenthsToString. rewrite Hd.
  repeat split; auto using ofN_nonempty, ofN_digits.
Qed.

(** Within the fixed range, [toFixed(1)] renders exactly one decimal
    digit. *)
Lemma toFixed1_oneDecimal (Number_toString : float -> string) (x : float) :
  Number.inFixedRange x = true ->
  oneDecimalDigit (Number.toFixed1 Number_toString x).
Proof.
  unfold Number.inFixedRange, Number.toFixed1.
  destruct (Prim2SF x) as [s|s| |s m e]; try discriminate; intros H.
  - apply (tenthsToString_oneDecimal EmptyString 0); [lia | now left].
  - apply negb_true_iff in H. rewrite H.
    apply tenthsToString_oneDecimal; [apply nearestTenths_nonneg|].
    destruct s; auto.
Qed.

Section ServerProperties.

Variable Number_toString : float -> string.
Variable errorMap : Zod.ZodIssueCode -> string.

Local Abbreviation format := (formatResults Number_toString).
Local Abbreviation handler := (callTool Number_toString errorMap).
Local Abbreviation handlerTry := (callToolTry Number_toString errorMap).

(** C5, as the code has it. For every list and query: on the empty list
    [formatResults] returns the one line that echoes the query between
    double quotes, with no header and no divider.  On a non-empty list it
    returns the header with the count, then one block per result joined by
    the divider: as many blocks as results, the block at each position
    rendering that position counted from 1, and the title, url,
    organization, region, startupHistory of the result at that position and
    its score times 100 through [toFixed(1)], whatever the score is.  For a
    result whose product is finite and below 10^21 in magnitude that
    rendering shows exactly one decimal digit.  The score 0.873 renders as
    87.3%. *)
Theorem formatResults_report (results : list NoticeResult) (query : string) :
  (results = [] ->
   format results query
   = (Str.DQUOTE ++ query ++ Str.DQUOTE ++ "에 대한 검색 결과가 없습니다.")%string)
  /\ (results <> [] ->
      exists blocks : list string,
        format results query
        = ("총 " ++ Str.ofNat (length results) ++ "개의 공고를 찾았습니다." ++ Str.LF
           ++ Str.repeat "=" 60 ++ Str.LF
           ++ Str.join (Str.LF ++ Str.LF ++ Str.repeat "-" 60 ++ Str.LF) blocks)%string
        /\ length blocks = length results
        /\ forall (i : nat) (r : NoticeResult),
            nth_error results i = Some r ->
            exists percent : string,
              nth_error blocks i
              = Some (Str.LF ++ "[" ++ Str.ofNat (i + 1) ++ "] " ++ title r ++ Str.LF
                      ++ "URL: " ++ url r ++ Str.LF
                      ++ "기관: " ++ organization (metadata r) ++ Str.LF
                      ++ "지역: " ++ region (metadata r) ++ Str.LF
                      ++ "대상: " ++ startupHistory (metadata r) ++ Str.LF
                      ++ "유사도: " ++ percent ++ "%")%string
              /\ percent = Number.toFixed1 Number_toString (score r * 100)%float
              /\ (Number.inFixedRange (score r * 100)%float = true ->
                  oneDecimalDigit percent))
  /\ Number.toFixed1 Number_toString (0.873 * 100)%float = "87.3".
Proof.
  split; [|split].
  - intros ->. reflexivity.
  - intros Hne.
    exists (Str.mapi (formatBlock Number_toString) results).
    split; [|split].
    + unfold formatResults.
      destruct results as [|r rest]; [contradiction|].
      cbn [length Nat.eqb]. unfold header, divider.
      rewrite !string_app_assoc. reflexivity.
    + apply mapiFrom_length.
    + intros i r Hi.
      exists (Number.toFixed1 Number_toString (score r * 100)%float).
      split; [|split].
      * unfold Str.mapi. rewrite (mapiFrom_nth_error _ 0 results i r Hi).
        reflexivity.
      * reflexivity.
      * apply toFixed1_oneDecimal.
  - vm_compute. reflexivity.
Qed.

(** ** The tool handler *)

(** [searchNotices] rejects with instances of [Error] only. *)
Lemma searchNotices_rejects_with_Error (remote : Remote) (query : string)
  (limit : option float) (reason : Thrown) :
  snd (searchNotices remote query limit) = Rejected reason ->
  exists e, reason = ThrownError e.
Proof.
  rewrite searchNotices_settles.
  destruct (searchNoticesTry _ _) as [v|r|]; simpl; try discriminate.
  destruct r as [e|s]; simpl.
  - destruct (String.eqb (name e) "AbortError"); intros [= <-]; eauto.
  - intros [= <-]. eauto.
Qed.

(** The handler settles as its [try] block does, rejections caught. *)
Lemma callTool_settles (remote : Remote) (params : CallToolParams) :
  handler remote params
  = (fst (handlerTry remote params),
     catch (snd (handlerTry remote params)) callToolCatch).
Proof.
  unfold callTool.
  destruct (handlerTry remote params). reflexivity.
Qed.

(** The [try] block on the tool's own name with arguments that parse. *)
Lemma callToolTry_parsed (remote : Remote) (params : CallToolParams) (data : SearchNoticeArgs) :
  toolName params = "search_notices" ->
  Zod.safeParse SearchNoticeArgsSchema (arguments params) = Zod.SafeParseSuccess data ->
  handlerTry remote params
  = (fst (searchNotices remote (query data) (limit data)),
     andThen (snd (searchNotices remote (query data) (limit data)))
       (fun results =>
          Fulfilled (mkResult [textBlock (format results (query data))] None))).
Proof.
  intros Hname Hparse.
  unfold callToolTry. rewrite Hname, Hparse. reflexivity.
Qed.

(** C2, as the code has it. When validation, the remote call and the
    formatting succeed, the handler returns an envelope whose content is a
    single block of type "text" holding the formatted report and which has
    no [isError] property. *)
Theorem callTool_success_envelope
  (remote : Remote) (params : CallToolParams) (data : SearchNoticeArgs)
  (results : list NoticeResult) :
  toolName params = "search_notices" ->
  Zod.safeParse SearchNoticeArgsSchema (arguments params) = Zod.SafeParseSuccess data ->
  snd (searchNotices remote (query data) (limit data)) = Fulfilled results ->
  snd (handler remote params)
  = Fulfilled (mkResult [mkText "text" (format results (query data))] None).
Proof.
  intros Hname Hparse Hsearch.
  rewrite callTool_settles, (callToolTry_parsed remote params data Hname Hparse).
  cbn [fst snd]. rewrite Hsearch. reflexivity.
Qed.

(** C3. No rejection leaves the handler: whatever the [try] block throws
    becomes a returned envelope with [isError: true] and the single text
    block ["오류: <message>"].  This is so for a tool name other than
    "search_notices", whose message names the tool, for arguments that fail
    validation, and for every failure of the client. *)
Theorem callTool_errors_enveloped (remote : Remote) (params : CallToolParams) :
  (forall reason, snd (handler remote params) <> Rejected reason)
  /\ (forall reason, snd (handlerTry remote params) = Rejected reason ->
        snd (handler remote params)
        = Fulfilled (mkResult [mkText "text" ("오류: " ++ thrownMessage reason)%string]
                              (Some true)))
  /\ (toolName params <> "search_notices" ->
      handler remote params
      = ([], Fulfilled (mkResult
                          [mkText "text"
                             ("오류: " ++ "알 수 없는 도구: " ++ toolName params)%string]
                          (Some true))))
  /\ (forall errors,
        toolName params = "search_notices" ->
        Zod.safeParse SearchNoticeArgsSchema (arguments params) = Zod.SafeParseError errors ->
        handler remote params
        = ([], Fulfilled (mkResult
                            [mkText "text"
                               ("오류: " ++ invalidArgumentsMessage errorMap errors)%string]
                            (Some true))))
  /\ (forall data reason,
        toolName params = "search_notices" ->
        Zod.safeParse SearchNoticeArgsSchema (arguments params) = Zod.SafeParseSuccess data ->
        snd (searchNotices remote (query data) (limit data)) = Rejected reason ->
        exists e, reason = ThrownError e
                  /\ snd (handler remote params)
                     = Fulfilled (mkResult [mkText "text" ("오류: " ++ message e)%string]
                                           (Some true))).
Proof.
  split; [|split; [|split; [|split]]].
  - intros reason. rewrite callTool_settles. simpl.
    destruct (snd (handlerTry remote params)); simpl; discriminate.
  - intros reason H. rewrite callTool_settles. simpl. rewrite H.
    destruct reason; reflexivity.
  - intros Hname. apply String.eqb_neq in Hname.
    unfold callTool, callToolTry.
    rewrite Hname. reflexivity.
  - intros errors Hname Hparse.
    unfold callTool, callToolTry.
    rewrite Hname, Hparse. reflexivity.
  - intros data reason Hname Hparse Hsearch.
    destruct (searchNotices_rejects_with_Error _ _ _ _ Hsearch) as (e & ->).
    exists e. split; [reflexivity|].
    rewrite callTool_settles, (callToolTry_parsed remote params data Hname Hparse).
    cbn [fst snd]. rewrite Hsearch. reflexivity.
Qed.

(** C10. An object with a valid query, a valid limit or none, and any
    other members is accepted; what the validator returns is what it
    returns without the other members, and it holds the query and the
    limit only.  The one request the handler then sends carries the query
    alone, so no other member reaches the client. *)
Theorem unknown_fields_stripped (members : list (string * json)) (q : string) :
  getMember "query" members = Some (JString q) ->
  (1 <= String.length q)%nat ->
  getMember "limit" members = None
  \/ (exists z, (1 <= z <= 50)%Z /\ getMember "limit" members = Some (JNumber (Number.ofZ z))) ->
  exists l : float,
    parseArgs members = Zod.SafeParseSuccess (mkArgs q (Some l))
    /\ parseArgs (declaredOnly members) = Zod.SafeParseSuccess (mkArgs q (Some l))
    /\ (forall remote,
          handler remote (mkParams "search_notices" (Some (JObject members)))
          = handler remote (mkParams "search_notices" (Some (JObject (declaredOnly members))))
          /\ fst (handler remote (mkParams "search_notices" (Some (JObject members))))
             = [mkRequest searchUrl "POST" [("Content-Type", "application/json")]
                          [("query", JString q)]]).
Proof.
  intros Hq Hlen Hlimit.
  assert (Hparse : exists l, parseArgs members = Zod.SafeParseSuccess (mkArgs q (Some l))).
  { destruct (validator_accepts members q Hq Hlen) as [Hnone Hsome].
    destruct Hlimit as [Hl|(z & Hz & Hl)]; eauto. }
  destruct Hparse as (l & Hparse). exists l.
  split; [exact Hparse|]. split; [now rewrite <- parseArgs_ignores_unknown|].
  intros remote.
  assert (Hsame : parseArgs (declaredOnly members) = parseArgs members)
    by (symmetry; apply parseArgs_ignores_unknown).
  unfold parseArgs in *.
  unfold callTool, callToolTry. simpl.
  rewrite Hsame, Hparse. simpl. split; reflexivity.
Qed.

End ServerProperties.

(** ** The theorems at the sample data *)

Lemma formatResults_report_witness :
  exists blocks : list string,
    formatResults Sample.Number_toString Sample2.mixed "grants"
    = (header 3 ++ Str.join divider blocks)%string
    /\ length blocks = 3%nat
    /\ nth_error blocks 1
       = Some (formatBlock Sample.Number_toString (Sample.grantA infinity) 1).
Proof.
  destruct (proj1 (proj2 (formatResults_report Sample.Number_toString
                            Sample2.mixed "grants")))
    as (blocks & Hreport & Hlength & Hblocks).
  { discriminate. }
  destruct (Hblocks 1%nat (Sample.grantA infinity) eq_refl) as (percent & Hblock & -> & _).
  exists blocks. split; [exact Hreport|]. split; [exact Hlength | exact Hblock].
Defined.

(** The tool called with [{query: "Seoul accelerator", limit: 2}] against
    an endpoint that returns five ranked results reports the first two. *)
Lemma callTool_success_envelope_witness :
  snd (callTool Sample.Number_toString Sample.errorMap Sample.healthy Sample.seoul)
  = Fulfilled (mkResult
                 [mkText "text"
                    (formatResults Sample.Number_toString
                       (firstn 2 Sample.ranked) "Seoul accelerator")]
                 None).
Proof.
  apply (callTool_success_envelope Sample.Number_toString Sample.errorMap
           Sample.healthy Sample.seoul (mkArgs "Seoul accelerator" (Some 2%float))
           (firstn 2 Sample.ranked)).
  - reflexivity.
  - reflexivity.
  - reflexivity.
Defined.

(** C2 as the spec words it fails: the envelope of that successful call has
    no [isError] property, so the property does not equal [false]. *)
Lemma callTool_success_isError_absent :
  exists envelope,
    snd (callTool Sample.Number_toString Sample.errorMap Sample.healthy Sample.seoul)
    = Fulfilled envelope
    /\ isError envelope = None
    /\ isError envelope <> Some false.
Proof.
  eexists. split; [reflexivity|]. split; [reflexivity | discriminate].
Qed.

Lemma unknown_fields_stripped_witness :
  exists l : float,
    parseArgs Sample.withExtras = Zod.SafeParseSuccess (mkArgs "grants" (Some l))
    /\ parseArgs (declaredOnly Sample.withExtras)
       = Zod.SafeParseSuccess (mkArgs "grants" (Some l))
    /\ (forall remote,
          callTool Sample.Number_toString Sample.errorMap remote
            (mkParams "search_notices" (Some (JObject Sample.withExtras)))
          = callTool Sample.Number_toString Sample.errorMap remote
              (mkParams "search_notices" (Some (JObject (declaredOnly Sample.withExtras))))
          /\ fst (callTool Sample.Number_toString Sample.errorMap remote
                    (mkParams "search_notices" (Some (JObject Sample.withExtras))))
             = [mkRequest searchUrl "POST" [("Content-Type", "application/json")]
                          [("query", JString "grants")]]).
Proof.
  apply (unknown_fields_stripped Sample.Number_toString Sample.errorMap
           Sample.withExtras "grants").
  - reflexivity.
  - simpl. lia.
  - right. exists 7%Z. split; [lia | reflexivity].
Defined.

Lemma hasPoint_app (a b : string) :
  hasPoint (a ++ b) = hasPoint a || hasPoint b.
Proof.
  induction a as [|c a IH]; simpl; [reflexivity|].
  now rewrite IH, orb_assoc.
Qed.

Lemma oneDecimalDigit_hasPoint (s : string) : oneDecimalDigit s -> hasPoint s = true.
Proof.
  intros (sign & whole & d & -> & _).
  rewrite !hasPoint_app. simpl. now rewrite !orb_true_r.
Qed.

(** C5 as the spec words it fails: a result whose score is [Infinity] (the
    JSON number 1e999 parses to it) is rendered with the similarity line
    "Infinity%", which shows no decimal digit. *)
Lemma formatResults_infinite_score :
  formatResults Sample.Number_toString [Sample.grantA infinity] "grants"
  = (header 1 ++ Str.LF ++ "[1] Grant A" ++ Str.LF ++ "URL: http://x" ++ Str.LF
     ++ "기관: Org" ++ Str.LF ++ "지역: Seoul" ++ Str.LF ++ "대상: 2yr" ++ Str.LF
     ++ "유사도: " ++ "Infinity" ++ "%")%string
  /\ Number.toFixed1 Sample.Number_toString (score (Sample.grantA infinity) * 100)%float
     = "Infinity"
  /\ ~ oneDecimalDigit "Infinity".
Proof.
  split; [vm_compute; reflexivity|]. split; [vm_compute; reflexivity|].
  intros H. apply oneDecimalDigit_hasPoint in H. discriminate.
Qed.

(** * Further properties of the code *)

(** ** The doubles the validator accepts *)

Lemma digits2_pos_size (m : positive) : digits2_pos m = Pos.size m.
Proof. induction m; simpl; congruence. Qed.

(** A mantissa of 53 bits lies between [2^52] and [2^53]. *)
Lemma digits53_bounds (m : positive) :
  digits2_pos m = 53%positive -> (2 ^ 52 <= Z.pos m < 2 ^ 53)%Z.
Proof.
  rewrite digits2_pos_size. intros H.
  pose proof (Pos.size_gt m) as Hgt. pose proof (Pos.size_le m) as Hle.
  rewrite H in Hgt, Hle.
  assert (Z.pos (2 ^ 53) = 2 ^ 53)%Z by reflexivity.
  lia.
Qed.

Lemma sameFinite_eq (a b : spec_float) : sameFinite a b = true -> a = b.
Proof.
  destruct a as [| | |s m e], b as [| | |s' m' e']; try discriminate. simpl.
  intros H. apply andb_true_iff in H. destruct H as [H He].
  apply andb_true_iff in H. destruct H as [Hs Hm].
  apply Bool.eqb_prop in Hs. apply Pos.eqb_eq in Hm. apply Z.eqb_eq in He.
  congruence.
Qed.

Lemma smallIntegersTable_holds : smallIntegersTable = true.
Proof. vm_compute. reflexivity. Qed.

Lemma ofZ_mantissa (z k : Z) :
  (1 <= z <= 50)%Z -> (47 <= k <= 52)%Z ->
  (2 ^ 52 <= 2 ^ k * z < 2 ^ 53)%Z ->
  Prim2SF (Number.ofZ z) = S754_finite false (Z.to_pos (2 ^ k * z)) (- k).
Proof.
  intros Hz Hk Hm.
  pose proof smallIntegersTable_holds as T. unfold smallIntegersTable in T.
  rewrite forallb_forall in T.
  assert (Hinz : In z (map Z.of_nat (seq 1 50))).
  { apply in_map_iff. exists (Z.to_nat z). split; [lia | apply in_seq; lia]. }
  specialize (T z Hinz). rewrite forallb_forall in T.
  assert (Hink : In k (map Z.of_nat (seq 47 6))).
  { apply in_map_iff. exists (Z.to_nat k). split; [lia | apply in_seq; lia]. }
  specialize (T k Hink). cbv zeta in T.
  destruct Hm as [Hlo Hhi].
  apply Z.leb_le in Hlo. apply Z.ltb_lt in Hhi. rewrite Hlo, Hhi in T.
  apply sameFinite_eq. exact T.
Qed.

(** [a < b] is false on two positive finite doubles: [b]'s exponent is
    below [a]'s, or they agree and [b]'s mantissa is not above [a]'s. *)
Lemma SFltb_false_finite (m : positive) (e : Z) (m' : positive) (e' : Z) :
  SFltb (S754_finite false m e) (S754_finite false m' e') = false ->
  (e' < e)%Z \/ (e = e' /\ (Z.pos m' <= Z.pos m)%Z).
Proof.
  unfold SFltb, SFcompare.
  change (Pos.compare_cont Eq m m') with (Pos.compare m m').
  destruct (Z.compare_spec e e') as [Heq|Hlt|Hgt]; intros H.
  - right. split; [exact Heq|].
    destruct (Pos.compare_spec m m') as [Hm|Hm|Hm]; [lia | discriminate H | lia].
  - discriminate H.
  - left. exact Hgt.
Qed.

(** A double that is an integer, not below 1 and not above 50, holds one
    of the integers 1 to 50. *)
Lemma small_integer_double (x : float) :
  Number.isInteger x = true ->
  (x <? 1)%float = false ->
  (50 <? x)%float = false ->
  exists z, (1 <= z <= 50)%Z /\ x = Number.ofZ z.
Proof.
  intros Hint Hmin Hmax.
  rewrite ltb_spec in Hmin, Hmax.
  pose proof (Prim2SF_valid x) as Hvalid.
  unfold Number.isInteger in Hint.
  assert (H1 : Prim2SF 1 = S754_finite false 4503599627370496 (-52)) by (vm_compute; reflexivity).
  assert (H50 : Prim2SF 50 = S754_finite false 7036874417766400 (-47)) by (vm_compute; reflexivity).
  rewrite H1 in Hmin. rewrite H50 in Hmax. clear H1 H50.
  destruct (Prim2SF x) as [s|s| |s m e] eqn:HP; try discriminate Hint.
  - cbv in Hmin. discriminate Hmin.
  - destruct s; [cbv in Hmin; discriminate Hmin|].
    apply SFltb_false_finite in Hmin, Hmax.
    unfold valid_binary, bounded, canonical_mantissa, fexp, SpecFloat.emin in Hvalid.
    apply andb_true_iff in Hvalid. destruct Hvalid as [Hcanon _].
    apply Z.eqb_eq in Hcanon.
    assert (Hdigits : digits2_pos m = 53%positive).
    { unfold prec, emax in Hcanon. lia. }
    apply digits53_bounds in Hdigits.
    change (2 ^ 53)%Z with 9007199254740992%Z in Hdigits.
    destruct (Z.leb_spec 0 e) as [Hpos|_]; [lia|].
    apply Z.eqb_eq in Hint.
    set (k := (- e)%Z) in *.
    set (z := (Z.pos m / 2 ^ k)%Z).
    assert (Hpow : (0 < 2 ^ k)%Z) by (apply Z.pow_pos_nonneg; lia).
    assert (Hm : (Z.pos m = 2 ^ k * z)%Z).
    { subst z. apply Z.div_exact in Hint; [exact Hint | lia]. }
    assert (Hz : (1 <= z <= 50)%Z).
    { split.
      - assert (0 < z)%Z by nia. lia.
      - assert (Hk : (k = 47 \/ 48 <= k)%Z) by lia.
        destruct Hk as [Hk|Hk].
        + rewrite Hk in Hm. change (2 ^ 47)%Z with 140737488355328%Z in Hm. lia.
        + assert (Hp : (2 ^ 48 <= 2 ^ k)%Z) by (apply Z.pow_le_mono_r; lia).
          change (2 ^ 48)%Z with 281474976710656%Z in Hp. nia. }
    exists z. split; [exact Hz|].
    apply Prim2SF_inj. rewrite HP.
    rewrite (ofZ_mantissa z k Hz) by lia.
    rewrite <- Hm. subst k. simpl. f_equal. lia.
Qed.

(** ** What the validator accepts, and what it reports *)

Lemma querySchema_OK_inv (path : list string) (input : option json)
  (issues : list Zod.ZodIssue) (q : string) :
  querySchema path input = (issues, Zod.OK q) ->
  input = Some (JString q) /\ (1 <= String.length q)%nat /\ issues = [].
Proof.
  unfold querySchema, Zod.ZodString.
  destruct input as [[|b|x|s|items|members]|]; try (intros H; discriminate H).
  simpl. destruct (Nat.ltb_spec (String.length s) 1) as [Hlt|Hge]; simpl.
  - intros H. discriminate H.
  - intros [= <- <-]. auto.
Qed.

Lemma numberChecks_OK_inv (path : list string) (x : float)
  (issues : list Zod.ZodIssue) (v : option float) :
  Zod.ZodOptional
    (Zod.ZodNumber [Zod.number_int; Zod.number_min 1 true; Zod.number_max 50 true])
    path (Some (JNumber x)) = (issues, Zod.OK v) ->
  issues = [] /\ v = Some x /\ exists z, (1 <= z <= 50)%Z /\ x = Number.ofZ z.
Proof.
  unfold Zod.ZodOptional, Zod.ZodNumber.
  destruct (Number.isNaN x); [intros H; discriminate H|].
  simpl.
  destruct (Number.isInteger x) eqn:Hint; simpl;
    [|intros H; discriminate H].
  destruct (x <? 1)%float eqn:Hmin; simpl; [intros H; discriminate H|].
  destruct (50 <? x)%float eqn:Hmax; simpl; [intros H; discriminate H|].
  intros [= <- <-]. repeat split.
  apply small_integer_double; assumption.
Qed.

Lemma limitSchema_OK_inv (path : list string) (input : option json)
  (issues : list Zod.ZodIssue) (v : option float) :
  limitSchema path input = (issues, Zod.OK v) ->
  issues = []
  /\ exists z, (1 <= z <= 50)%Z /\ v = Some (Number.ofZ z)
               /\ ((input = None /\ z = 5%Z) \/ input = Some (JNumber (Number.ofZ z))).
Proof.
  unfold limitSchema, Zod.ZodDefault.
  destruct input as [[|b|x|s|items|members]|];
    try (intros H; discriminate H).
  - intros H. apply numberChecks_OK_inv in H. destruct H as (-> & -> & z & Hz & ->).
    split; [reflexivity|]. exists z. auto.
  - intros H. apply numberChecks_OK_inv in H. destruct H as (-> & -> & _).
    split; [reflexivity|]. exists 5%Z. repeat split; try lia. now left.
Qed.

Lemma mergeObject_OK_inv {A B C : Type} (build : A -> B -> C)
  (r1 : Zod.ParseReturn A) (r2 : Zod.ParseReturn B) (c : C) :
  Zod.mergeObject build r1 r2 = Zod.OK c ->
  exists a b, r1 = Zod.OK a /\ r2 = Zod.OK b /\ c = build a b.
Proof.
  destruct r1 as [a|a|], r2 as [b|b|]; simpl; intros H; try discriminate H.
  injection H as <-. eauto.
Qed.

(** What arguments that parse look like, and what they parse to. *)
Lemma safeParse_success_inv (data : option json) (args : SearchNoticeArgs) :
  Zod.safeParse SearchNoticeArgsSchema data = Zod.SafeParseSuccess args ->
  exists members z,
    data = Some (JObject members)
    /\ getMember "query" members = Some (JString (query args))
    /\ (1 <= String.length (query args))%nat
    /\ (1 <= z <= 50)%Z
    /\ limit args = Some (Number.ofZ z)
    /\ ((getMember "limit" members = None /\ z = 5%Z)
        \/ getMember "limit" members = Some (JNumber (Number.ofZ z))).
Proof.
  destruct data as [[|b|x|s|items|members]|]; try (intros H; discriminate H).
  fold (parseArgs members). rewrite parseArgs_unfold.
  destruct (querySchema ["query"] (getMember "query" members)) as [i1 r1] eqn:Hq.
  destruct (limitSchema ["limit"] (getMember "limit" members)) as [i2 r2] eqn:Hl.
  destruct (Zod.mergeObject mkArgs r1 r2) as [c|c|] eqn:Hm; intros H; try discriminate H.
  injection H as ->.
  apply mergeObject_OK_inv in Hm. destruct Hm as (q & v & -> & -> & ->).
  apply querySchema_OK_inv in Hq. destruct Hq as (Hq & Hlen & _).
  apply limitSchema_OK_inv in Hl. destruct Hl as (_ & z & Hz & -> & Hl).
  exists members, z. simpl. repeat split; auto; lia.
Qed.

(** X2. Arguments that parse are an object whose [query] is a non-empty
    string and whose [limit] is absent or holds an integer from 1 to 50;
    they parse to that query and that limit, 5 when absent. *)
Theorem validator_sound (data : option json) (args : SearchNoticeArgs) :
  Zod.safeParse SearchNoticeArgsSchema data = Zod.SafeParseSuccess args ->
  exists members z,
    data = Some (JObject members)
    /\ getMember "query" members = Some (JString (query args))
    /\ (1 <= String.length (query args))%nat
    /\ (1 <= z <= 50)%Z
    /\ limit args = Some (Number.ofZ z)
    /\ ((getMember "limit" members = None /\ z = 5%Z)
        \/ getMember "limit" members = Some (JNumber (Number.ofZ z))).
Proof. apply safeParse_success_inv. Qed.

Lemma validator_sound_witness :
  exists members z,
    arguments Sample.seoul = Some (JObject members)
    /\ getMember "query" members = Some (JString "Seoul accelerator")
    /\ (1 <= String.length "Seoul accelerator")%nat
    /\ (1 <= z <= 50)%Z
    /\ Some 2%float = Some (Number.ofZ z)
    /\ ((getMember "limit" members = None /\ z = 5%Z)
        \/ getMember "limit" members = Some (JNumber (Number.ofZ z))).
Proof.
  apply (validator_sound (arguments Sample.seoul)
           (mkArgs "Seoul accelerator" (Some 2%float))).
  reflexivity.
Defined.

(** Each schema either accepts with no issue or reports at least one. *)
Lemma querySchema_issue_or_OK (path : list string) (input : option json) :
  (exists q, querySchema path input = ([], Zod.OK q))
  \/ (exists e rest r, querySchema path input = (e :: rest, r)
                       /\ forall q, r <> Zod.OK q).
Proof.
  unfold querySchema, Zod.ZodString.
  destruct input as [[|b|x|s|items|members]|];
    try (right; eexists _, _, _; split; [reflexivity | intros q H; discriminate H]).
  simpl. destruct (String.length s <? 1)%nat; simpl.
  - right. eexists _, _, _. split; [reflexivity | intros q H; discriminate H].
  - left. eauto.
Qed.

Lemma limitSchema_issue_or_OK (path : list string) (input : option json) :
  (exists v, limitSchema path input = ([], Zod.OK v))
  \/ (exists e rest r, limitSchema path input = (e :: rest, r)
                       /\ forall v, r <> Zod.OK v).
Proof.
  unfold limitSchema, Zod.ZodDefault, Zod.ZodOptional, Zod.ZodNumber.
  destruct input as [[|b|x|s|items|members]|];
    try (right; eexists _, _, _; split; [reflexivity | intros q H; discriminate H]).
  - destruct (Number.isNaN x);
      [right; eexists _, _, _; split; [reflexivity | intros q H; discriminate H]|].
    simpl.
    destruct (Number.isInteger x), (x <? 1)%float, (50 <? x)%float; simpl;
      try (right; eexists _, _, _; split; [reflexivity | intros q H; discriminate H]).
    left. eauto.
  - left. eexists. vm_compute. reflexivity.
Qed.

Lemma querySchema_paths (path : list string) (input : option json) (e : Zod.ZodIssue) :
  In e (fst (querySchema path input)) -> Zod.path e = path.
Proof.
  unfold querySchema, Zod.ZodString.
  destruct input as [[|b|x|s|items|members]|]; simpl;
    try (intros [<-|[]]; reflexivity).
  destruct (String.length s <? 1)%nat; simpl; [|intros []].
  intros [<-|[]]. reflexivity.
Qed.

Lemma limitSchema_paths (path : list string) (input : option json) (e : Zod.ZodIssue) :
  In e (fst (limitSchema path input)) -> Zod.path e = path.
Proof.
  unfold limitSchema, Zod.ZodDefault, Zod.ZodOptional, Zod.ZodNumber.
  destruct input as [[|b|x|s|items|members]|]; simpl;
    try (intros [<-|[]]; reflexivity).
  - destruct (Number.isNaN x); simpl; [intros [<-|[]]; reflexivity|].
    destruct (Number.isInteger x), (x <? 1)%float, (50 <? x)%float; simpl;
      intuition (subst; reflexivity).
  - vm_compute. intros [].
Qed.

(** The issues of a failed parse are those of [query] followed by those of
    [limit]. *)
Lemma parseArgs_errors (members : list (string * json)) (errors : list Zod.ZodIssue) :
  parseArgs members = Zod.SafeParseError errors ->
  errors = fst (querySchema ["query"] (getMember "query" members))
           ++ fst (limitSchema ["limit"] (getMember "limit" members)).
Proof.
  rewrite parseArgs_unfold.
  destruct (querySchema ["query"] (getMember "query" members)) as [i1 r1].
  destruct (limitSchema ["limit"] (getMember "limit" members)) as [i2 r2].
  destruct (Zod.mergeObject mkArgs r1 r2); intros H; try discriminate H;
    injection H as <-; reflexivity.
Qed.

(** X3. When an object fails validation, every issue reported names the
    field [query] or the field [limit]; a query that is missing, no string
    or empty is always among them, and so is a limit that is present and
    is not an integer from 1 to 50, whatever the other field is. *)
Theorem validator_reports_each_field
  (members : list (string * json)) (errors : list Zod.ZodIssue) :
  parseArgs members = Zod.SafeParseError errors ->
  (forall e, In e errors -> Zod.path e = ["query"] \/ Zod.path e = ["limit"])
  /\ ((forall q, getMember "query" members = Some (JString q) -> q = EmptyString) ->
      exists e, In e errors /\ Zod.path e = ["query"])
  /\ (forall v, getMember "limit" members = Some v ->
        (forall z, (1 <= z <= 50)%Z -> v <> JNumber (Number.ofZ z)) ->
        exists e, In e errors /\ Zod.path e = ["limit"]).
Proof.
  intros Herr. apply parseArgs_errors in Herr. subst errors.
  split; [|split].
  - intros e He. apply in_app_or in He. destruct He as [He|He].
    + left. now apply (querySchema_paths _ _ e He).
    + right. now apply (limitSchema_paths _ _ e He).
  - intros Hq.
    destruct (querySchema_issue_or_OK ["query"] (getMember "query" members))
      as [(q & HOK)|(e & rest & r & Hbad & _)].
    + apply querySchema_OK_inv in HOK. destruct HOK as (Hs & Hlen & _).
      rewrite (Hq q Hs) in Hlen. simpl in Hlen. lia.
    + exists e. split.
      * apply in_or_app. left. rewrite Hbad. now left.
      * apply (querySchema_paths ["query"] (getMember "query" members)).
        rewrite Hbad. now left.
  - intros v Hv Hbadv.
    destruct (limitSchema_issue_or_OK ["limit"] (getMember "limit" members))
      as [(l & HOK)|(e & rest & r & Hbad & _)].
    + apply limitSchema_OK_inv in HOK. destruct HOK as (_ & z & Hz & _ & [[Hn _]|Hs]).
      * rewrite Hv in Hn. discriminate Hn.
      * rewrite Hv in Hs. injection Hs as ->. now destruct (Hbadv z Hz).
    + exists e. split.
      * apply in_or_app. right. rewrite Hbad. now left.
      * apply (limitSchema_paths ["limit"] (getMember "limit" members)).
        rewrite Hbad. now left.
Qed.

Lemma validator_reports_each_field_witness :
  (exists e, In e [Zod.mkIssue (Zod.too_small Zod.string_ 1 true) ["query"]
                     (Some "검색어는 비워둘 수 없습니다");
                   Zod.mkIssue (Zod.too_small Zod.number 1 true) ["limit"] None]
             /\ Zod.path e = ["query"]).
Proof.
  apply (validator_reports_each_field Sample2.bothInvalid).
  - reflexivity.
  - intros q [= <-]. reflexivity.
Defined.

(** ** More on the remote search client *)

(** [slice(0, end)] returns a prefix, whatever number [end] is. *)
Lemma slice0_prefix {A : Type} (l : list A) (end_ : float) :
  exists k, (k <= length l)%nat /\ slice0 l end_ = firstn k l.
Proof.
  unfold slice0.
  set (final := match Number.toIntegerOrInfinity end_ with
                | Number.NegInfinity => 0%Z
                | Number.Finite relativeEnd =>
                    if (relativeEnd <? 0)%Z
                    then Z.max (Z.of_nat (length l) + relativeEnd) 0
                    else Z.min relativeEnd (Z.of_nat (length l))
                | Number.PosInfinity => Z.of_nat (length l)
                end).
  assert (Hfinal : (final <= Z.of_nat (length l))%Z).
  { subst final. destruct (Number.toIntegerOrInfinity end_) as [|z|]; try lia.
    destruct (Z.ltb_spec z 0); lia. }
  exists (Z.to_nat final). split; [lia | reflexivity].
Qed.

(** What a fulfilled call went through: an answer in time with a 2xx
    status and a body whose [results] is an array, which was sliced. *)
Lemma searchNotices_fulfilled_inv (remote : Remote) (query : string)
  (limit : option float) (returned : list NoticeResult) :
  snd (searchNotices remote query limit) = Fulfilled returned ->
  exists ms response supplied,
    remote (searchRequest query) = Responds ms response
    /\ (ms < timeoutMs)%N
    /\ ok response = true
    /\ json_ response = Fulfilled (DataObject (Some (ResultsArray supplied)))
    /\ returned = slice0 supplied (match limit with Some l => l | None => 5%float end).
Proof.
  rewrite searchNotices_settles. unfold fetchWithTimeout.
  destruct (remote (searchRequest query)) as [ms response|ms reason|] eqn:Hnet.
  - destruct (N.ltb_spec ms timeoutMs) as [Hms|Hms]; [|intros H; discriminate H].
    unfold searchNoticesTry. simpl.
    destruct (ok response) eqn:Hok; simpl; [|intros H; discriminate H].
    destruct (json_ response) as [data|reason|] eqn:Hjson; simpl.
    + destruct data as [|[[supplied| |b|x|s|]|]|]; simpl;
        try (intros H; discriminate H).
      * intros [= <-]. exists ms, response, supplied. auto.
      * destruct b; intros H; discriminate H.
      * destruct (Number.toBoolean x); intros H; discriminate H.
      * destruct (negb (String.eqb s "")); intros H; discriminate H.
    + destruct reason as [e|s]; simpl;
        [destruct (String.eqb (name e) "AbortError")|]; intros H; discriminate H.
    + intros H. discriminate H.
  - destruct (ms <? timeoutMs)%N; simpl; [|intros H; discriminate H].
    destruct reason as [e|s]; simpl;
      [destruct (String.eqb (name e) "AbortError")|]; intros H; discriminate H.
  - intros H. discriminate H.
Qed.

(** X4. [searchNotices] fulfils exactly when the answer arrives before the
    timer with a 2xx status and a body whose [results] is an array, and
    then with that array sliced to the limit (5 when none is passed): no
    other answer yields a result list. *)
Theorem searchNotices_fulfils_iff (remote : Remote) (query : string)
  (limit : option float) (returned : list NoticeResult) :
  snd (searchNotices remote query limit) = Fulfilled returned
  <-> exists ms response supplied,
        remote (searchRequest query) = Responds ms response
        /\ (ms < timeoutMs)%N
        /\ ok response = true
        /\ json_ response = Fulfilled (DataObject (Some (ResultsArray supplied)))
        /\ returned = slice0 supplied (match limit with Some l => l | None => 5%float end).
Proof.
  split.
  - apply searchNotices_fulfilled_inv.
  - intros (ms & response & supplied & Hnet & Hms & Hok & Hjson & ->).
    apply (searchNotices_fulfilled remote query limit ms response supplied);
      assumption.
Qed.

(** X5. Whatever number is passed as limit (negative, fractional, NaN or
    infinite) or none at all, the list returned on a successful answer
    is a prefix of the array supplied: entries are never reordered, altered
    or invented.  With no limit it is the first five entries, or all when
    there are fewer. *)
Theorem searchNotices_any_limit_prefix
  (remote : Remote) (query : string) (limit : option float) (ms : N)
  (response : Response) (supplied : list NoticeResult) :
  remote (searchRequest query) = Responds ms response ->
  (ms < timeoutMs)%N ->
  ok response = true ->
  json_ response = Fulfilled (DataObject (Some (ResultsArray supplied))) ->
  (exists k, (k <= length supplied)%nat
             /\ snd (searchNotices remote query limit) = Fulfilled (firstn k supplied))
  /\ snd (searchNotices remote query None)
     = Fulfilled (firstn (Nat.min 5 (length supplied)) supplied).
Proof.
  intros Hnet Hms Hok Hjson. split.
  - destruct (slice0_prefix supplied (match limit with Some l => l | None => 5%float end))
      as (k & Hk & Hslice).
    exists k. split; [exact Hk|].
    rewrite (searchNotices_fulfilled remote query limit ms response supplied Hnet Hms Hok Hjson).
    now rewrite Hslice.
  - rewrite (searchNotices_fulfilled remote query None ms response supplied Hnet Hms Hok Hjson).
    f_equal. apply (slice0_firstn supplied 5%float 5); [reflexivity | lia].
Qed.

Lemma searchNotices_any_limit_prefix_witness :
  (exists k, (k <= length Sample.ranked)%nat
             /\ snd (searchNotices Sample.healthy "grants" (Some (-1.5)%float))
                = Fulfilled (firstn k Sample.ranked))
  /\ snd (searchNotices Sample.healthy "grants" None)
     = Fulfilled (firstn (Nat.min 5 (length Sample.ranked)) Sample.ranked).
Proof.
  apply (searchNotices_any_limit_prefix Sample.healthy "grants" (Some (-1.5)%float) 120
           (mkResponse 200 "OK" (Fulfilled (DataObject (Some (ResultsArray Sample.ranked)))))
           Sample.ranked).
  - reflexivity.
  - reflexivity.
  - reflexivity.
  - reflexivity.
Defined.

(** X6. The promise of [searchNotices] stays pending in one case only: the
    head of a 2xx answer arrived before the timer, which was then cleared,
    and the reading of the body never settles.  The timer does not cover
    the body. *)
Theorem searchNotices_pending_iff (remote : Remote) (query : string)
  (limit : option float) :
  snd (searchNotices remote query limit) = Pending
  <-> exists ms response,
        remote (searchRequest query) = Responds ms response
        /\ (ms < timeoutMs)%N
        /\ ok response = true
        /\ json_ response = Pending.
Proof.
  rewrite searchNotices_settles. unfold fetchWithTimeout. split.
  - destruct (remote (searchRequest query)) as [ms response|ms reason|] eqn:Hnet.
    + destruct (N.ltb_spec ms timeoutMs) as [Hms|Hms]; [|intros H; discriminate H].
      unfold searchNoticesTry. simpl.
      destruct (ok response) eqn:Hok; simpl; [|intros H; discriminate H].
      destruct (json_ response) as [data|reason|] eqn:Hjson; simpl.
      * destruct data as [|[[supplied| |b|x|s|]|]|]; simpl;
          try (intros H; discriminate H).
        -- destruct b; intros H; discriminate H.
        -- destruct (Number.toBoolean x); intros H; discriminate H.
        -- destruct (negb (String.eqb s "")); intros H; discriminate H.
      * destruct reason as [e|s]; simpl;
          [destruct (String.eqb (name e) "AbortError")|]; intros H; discriminate H.
      * intros _. exists ms, response. auto.
    + destruct (ms <? timeoutMs)%N; simpl; [|intros H; discriminate H].
      destruct reason as [e|s]; simpl;
        [destruct (String.eqb (name e) "AbortError")|]; intros H; discriminate H.
    + intros H. discriminate H.
  - intros (ms & response & Hnet & Hms & Hok & Hjson).
    rewrite Hnet. apply N.ltb_lt in Hms. rewrite Hms.
    unfold searchNoticesTry. simpl. rewrite Hok, Hjson. reflexivity.
Qed.

(** ** More on the formatter and the handler *)

Lemma string_app_inv_head (p a b : string) :
  (p ++ a = p ++ b)%string -> a = b.
Proof.
  induction p as [|c p IH]; simpl; [auto|]. intros [= H]. auto.
Qed.

Lemma string_app_length (a b : string) :
  String.length (a ++ b) = (String.length a + String.length b)%nat.
Proof. induction a as [|c a IH]; simpl; [reflexivity | now rewrite IH]. Qed.

Lemma string_app_inv_tail (a b r : string) :
  (a ++ r = b ++ r)%string -> a = b.
Proof.
  revert b. induction a as [|c a IH]; intros [|d b] H; simpl in H.
  - reflexivity.
  - apply (f_equal String.length) in H. simpl in H.
    rewrite string_app_length in H. lia.
  - apply (f_equal String.length) in H. simpl in H.
    rewrite string_app_length in H. lia.
  - injection H as -> H. f_equal. now apply IH.
Qed.

Section MoreServerProperties.

Variable Number_toString : float -> string.
Variable errorMap : Zod.ZodIssueCode -> string.

Local Abbreviation format := (formatResults Number_toString).
Local Abbreviation handler := (callTool Number_toString errorMap).
Local Abbreviation handlerTry := (callToolTry Number_toString errorMap).

(** The handler on arguments that parse, once the client has fulfilled. *)
Lemma callTool_fulfilled (remote : Remote) (params : CallToolParams)
  (data : SearchNoticeArgs) (results : list NoticeResult) :
  toolName params = "search_notices" ->
  Zod.safeParse SearchNoticeArgsSchema (arguments params) = Zod.SafeParseSuccess data ->
  snd (searchNotices remote (query data) (limit data)) = Fulfilled results ->
  handler remote params
  = ([searchRequest (query data)],
     Fulfilled (mkResult [mkText "text" (format results (query data))] None)).
Proof.
  intros Hname Hparse Hsearch.
  rewrite callTool_settles, (callToolTry_parsed _ _ remote params data Hname Hparse).
  cbn [fst snd]. rewrite Hsearch. reflexivity.
Qed.

(** The handler on arguments that parse, once the client has rejected. *)
Lemma callTool_client_rejected (remote : Remote) (params : CallToolParams)
  (data : SearchNoticeArgs) (e : Error) :
  toolName params = "search_notices" ->
  Zod.safeParse SearchNoticeArgsSchema (arguments params) = Zod.SafeParseSuccess data ->
  snd (searchNotices remote (query data) (limit data)) = Rejected (ThrownError e) ->
  snd (handler remote params)
  = Fulfilled (mkResult [mkText "text" ("오류: " ++ message e)%string] (Some true)).
Proof.
  intros Hname Hparse Hsearch.
  rewrite callTool_settles, (callToolTry_parsed _ _ remote params data Hname Hparse).
  cbn [fst snd]. rewrite Hsearch. reflexivity.
Qed.

(** X7. A non-2xx answer in time is reported with its status and status
    text, and its body is never read: the client rejects with
    ["API 응답 오류: <status> <statusText>"] however the body would have
    settled, and the handler answers with that message in an error
    envelope. *)
Theorem status_error_reported (remote : Remote) (params : CallToolParams)
  (data : SearchNoticeArgs) (ms : N) (response : Response) :
  toolName params = "search_notices" ->
  Zod.safeParse SearchNoticeArgsSchema (arguments params) = Zod.SafeParseSuccess data ->
  remote (searchRequest (query data)) = Responds ms response ->
  (ms < timeoutMs)%N ->
  ok response = false ->
  snd (searchNotices remote (query data) (limit data))
  = Rejected (ThrownError
                (newError ("API 응답 오류: " ++ Str.ofNat (status response) ++ " "
                           ++ statusText response)%string))
  /\ snd (handler remote params)
     = Fulfilled (mkResult
                    [mkText "text"
                       ("오류: " ++ "API 응답 오류: " ++ Str.ofNat (status response)
                        ++ " " ++ statusText response)%string]
                    (Some true)).
Proof.
  intros Hname Hparse Hnet Hms Hok.
  assert (Hsearch :
    snd (searchNotices remote (query data) (limit data))
    = Rejected (ThrownError (newError (statusMessage response)))).
  { rewrite searchNotices_settles. unfold fetchWithTimeout. rewrite Hnet.
    apply N.ltb_lt in Hms. rewrite Hms.
    unfold searchNoticesTry. simpl. rewrite Hok. reflexivity. }
  split; [exact Hsearch|].
  exact (callTool_client_rejected remote params data _ Hname Hparse Hsearch).
Qed.

(** X8. A call of "search_notices" without arguments fails validation
    with a single issue whose path is empty, so the handler's message reads
    ["잘못된 인자: : <message>"], with nothing before the colon; nothing
    is sent. *)
Theorem absent_arguments_rejected (remote : Remote) :
  Zod.safeParse SearchNoticeArgsSchema None
  = Zod.SafeParseError
      [Zod.mkIssue (Zod.invalid_type Zod.object Zod.undefined) [] None]
  /\ handler remote (mkParams "search_notices" None)
     = ([], Fulfilled (mkResult
                         [mkText "text"
                            ("오류: " ++ "잘못된 인자: " ++ ": "
                             ++ errorMap (Zod.invalid_type Zod.object Zod.undefined))%string]
                         (Some true))).
Proof.
  split; reflexivity.
Qed.

(** X9. The handler sends at most one request per invocation, and none
    unless the tool is "search_notices" and the arguments passed
    validation; the request then carries the validated query. *)
Theorem callTool_requests (remote : Remote) (params : CallToolParams) :
  (fst (handler remote params) = []
   /\ (toolName params <> "search_notices"
       \/ exists errors,
            Zod.safeParse SearchNoticeArgsSchema (arguments params)
            = Zod.SafeParseError errors))
  \/ (toolName params = "search_notices"
      /\ exists data,
           Zod.safeParse SearchNoticeArgsSchema (arguments params)
           = Zod.SafeParseSuccess data
           /\ fst (handler remote params) = [searchRequest (query data)]).
Proof.
  rewrite callTool_settles. cbn [fst]. unfold callToolTry.
  destruct (String.eqb_spec (toolName params) "search_notices") as [Hname|Hname].
  - destruct (Zod.safeParse SearchNoticeArgsSchema (arguments params))
      as [data|errors] eqn:Hparse.
    + right. split; [exact Hname|]. exists data. split; reflexivity.
    + left. split; [reflexivity|]. right. exists errors. reflexivity.
  - left. split; [reflexivity|]. now left.
Qed.

(** X10. Every envelope the handler returns is one of two: the report of
    a fulfilled search, with no [isError] property, or the message of what
    the [try] block threw behind ["오류: "], with [isError: true].  Either
    way the content is a single text block and [isError] is never
    [false]. *)
Theorem callTool_envelope_shape (remote : Remote) (params : CallToolParams)
  (envelope : CallToolResult) :
  snd (handler remote params) = Fulfilled envelope ->
  ((exists data results,
      toolName params = "search_notices"
      /\ Zod.safeParse SearchNoticeArgsSchema (arguments params)
         = Zod.SafeParseSuccess data
      /\ snd (searchNotices remote (query data) (limit data)) = Fulfilled results
      /\ envelope = mkResult [mkText "text" (format results (query data))] None)
   \/ (exists reason,
         snd (handlerTry remote params) = Rejected reason
         /\ envelope = mkResult [mkText "text" ("오류: " ++ thrownMessage reason)%string]
                                (Some true)))
  /\ (exists t, content envelope = [mkText "text" t])
  /\ isError envelope <> Some false.
Proof.
  intros Henv.
  assert (Hshape :
    (exists data results,
        toolName params = "search_notices"
        /\ Zod.safeParse SearchNoticeArgsSchema (arguments params)
           = Zod.SafeParseSuccess data
        /\ snd (searchNotices remote (query data) (limit data)) = Fulfilled results
        /\ envelope = mkResult [mkText "text" (format results (query data))] None)
    \/ (exists reason,
           snd (handlerTry remote params) = Rejected reason
           /\ envelope = mkResult [mkText "text" ("오류: " ++ thrownMessage reason)%string]
                                  (Some true))).
  { rewrite callTool_settles in Henv. cbn [snd] in Henv.
    destruct (snd (handlerTry remote params)) as [v|reason|] eqn:Htry;
      simpl in Henv; try discriminate Henv.
    - left. injection Henv as <-.
      unfold callToolTry in Htry.
      destruct (String.eqb_spec (toolName params) "search_notices") as [Hname|Hname];
        [|discriminate Htry].
      destruct (Zod.safeParse SearchNoticeArgsSchema (arguments params))
        as [data|errors] eqn:Hparse; [|discriminate Htry].
      destruct (searchNotices remote (query data) (limit data)) as [sent searched] eqn:Hs.
      simpl in Htry.
      destruct searched as [results|r|]; simpl in Htry; try discriminate Htry.
      injection Htry as <-.
      exists data, results. rewrite Hs. auto.
    - right. exists reason. split; [reflexivity|].
      injection Henv as <-. destruct reason; reflexivity. }
  split; [exact Hshape|].
  destruct Hshape as [(data & results & _ & _ & _ & ->)|(reason & _ & ->)];
    simpl; split; eauto; discriminate.
Qed.

(** X11. End to end, for an endpoint that keeps to the declared type of
    its results: when the arguments pass validation and the endpoint
    answers in time with a 2xx status and an array whose elements all are
    [NoticeResult] records (title, url, numeric score, metadata with its
    three strings), the handler sends the one request and returns the
    report of the first [min(limit, length)] results, [limit] being the
    validated integer from 1 to 50; the report lists at most 50 results.
    An array with other elements is outside this statement. *)
Theorem callTool_reports_first_results
  (remote : Remote) (params : CallToolParams) (data : SearchNoticeArgs)
  (ms : N) (response : Response) (supplied : list NoticeResult) :
  toolName params = "search_notices" ->
  Zod.safeParse SearchNoticeArgsSchema (arguments params) = Zod.SafeParseSuccess data ->
  remote (searchRequest (query data)) = Responds ms response ->
  (ms < timeoutMs)%N ->
  ok response = true ->
  json_ response = Fulfilled (DataObject (Some (ResultsArray supplied))) ->
  exists z,
    (1 <= z <= 50)%Z
    /\ limit data = Some (Number.ofZ z)
    /\ handler remote params
       = ([searchRequest (query data)],
          Fulfilled (mkResult
                       [mkText "text"
                          (format (firstn (Nat.min (Z.to_nat z) (length supplied)) supplied)
                                  (query data))]
                       None))
    /\ (length (firstn (Nat.min (Z.to_nat z) (length supplied)) supplied) <= 50)%nat.
Proof.
  intros Hname Hparse Hnet Hms Hok Hjson.
  destruct (safeParse_success_inv _ _ Hparse) as (members & z & _ & _ & _ & Hz & Hlimit & _).
  exists z. split; [exact Hz|]. split; [exact Hlimit|]. split.
  - apply (callTool_fulfilled remote params data _ Hname Hparse).
    rewrite (searchNotices_fulfilled remote (query data) (limit data) ms response supplied
               Hnet Hms Hok Hjson).
    rewrite Hlimit. f_equal.
    destruct (ofZ_in_range z Hz) as (_ & _ & _ & _ & Hint).
    apply (slice0_firstn supplied (Number.ofZ z) z Hint). lia.
  - rewrite length_firstn. lia.
Qed.

(** X12. Whatever the endpoint does, a report the handler returns lists at
    most as many results as the validated limit, hence at most 50. *)
Theorem callTool_report_within_limit (remote : Remote) (params : CallToolParams)
  (envelope : CallToolResult) :
  snd (handler remote params) = Fulfilled envelope ->
  isError envelope = None ->
  exists data z results,
    Zod.safeParse SearchNoticeArgsSchema (arguments params) = Zod.SafeParseSuccess data
    /\ limit data = Some (Number.ofZ z)
    /\ content envelope = [mkText "text" (format results (query data))]
    /\ (length results <= Z.to_nat z)%nat
    /\ (Z.to_nat z <= 50)%nat.
Proof.
  intros Henv Hnone.
  rewrite callTool_settles in Henv. cbn [snd] in Henv.
  destruct (snd (handlerTry remote params)) as [v|reason|] eqn:Htry;
    simpl in Henv; try discriminate Henv.
  - injection Henv as <-.
    unfold callToolTry in Htry.
    destruct (String.eqb (toolName params) "search_notices"); [|discriminate Htry].
    destruct (Zod.safeParse SearchNoticeArgsSchema (arguments params))
      as [data|errors] eqn:Hparse; [|discriminate Htry].
    destruct (searchNotices remote (query data) (limit data)) as [sent searched] eqn:Hs.
    simpl in Htry.
    destruct searched as [results|r|]; simpl in Htry; try discriminate Htry.
    injection Htry as <-.
    destruct (safeParse_success_inv _ _ Hparse)
      as (members & z & _ & _ & _ & Hz & Hlimit & _).
    exists data, z, results. repeat split; auto; try lia.
    assert (Hsnd : snd (searchNotices remote (query data) (limit data)) = Fulfilled results)
      by (rewrite Hs; reflexivity).
    apply searchNotices_fulfilled_inv in Hsnd.
    destruct Hsnd as (ms & response & supplied & _ & _ & _ & _ & ->).
    rewrite Hlimit.
    destruct (ofZ_in_range z Hz) as (_ & _ & _ & _ & Hint).
    rewrite (slice0_firstn supplied (Number.ofZ z) z Hint) by lia.
    rewrite length_firstn. lia.
  - injection Henv as <-. destruct reason; discriminate Hnone.
Qed.

(** X13. An empty array of results is no malformed answer: the client
    fulfils with the empty list and the handler returns, with no
    [isError], the one-line message that echoes the validated query. *)
Theorem callTool_empty_results
  (remote : Remote) (params : CallToolParams) (data : SearchNoticeArgs)
  (ms : N) (response : Response) :
  toolName params = "search_notices" ->
  Zod.safeParse SearchNoticeArgsSchema (arguments params) = Zod.SafeParseSuccess data ->
  remote (searchRequest (query data)) = Responds ms response ->
  (ms < timeoutMs)%N ->
  ok response = true ->
  json_ response = Fulfilled (DataObject (Some (ResultsArray []))) ->
  snd (searchNotices remote (query data) (limit data)) = Fulfilled []
  /\ snd (handler remote params)
     = Fulfilled (mkResult
                    [mkText "text"
                       (Str.DQUOTE ++ query data ++ Str.DQUOTE
                        ++ "에 대한 검색 결과가 없습니다.")%string]
                    None).
Proof.
  intros Hname Hparse Hnet Hms Hok Hjson.
  assert (Hsearch : snd (searchNotices remote (query data) (limit data)) = Fulfilled []).
  { rewrite (searchNotices_fulfilled remote (query data) (limit data) ms response []
               Hnet Hms Hok Hjson).
    unfold slice0. now rewrite firstn_nil. }
  split; [exact Hsearch|].
  rewrite (callTool_fulfilled remote params data [] Hname Hparse Hsearch).
  reflexivity.
Qed.

(** X14. The query is echoed in the report of an empty list only, where
    it can be read back; the report of a non-empty list does not depend on
    the query. *)
Theorem formatResults_query_echo (results : list NoticeResult) (q1 q2 : string) :
  (results <> [] -> format results q1 = format results q2)
  /\ (format [] q1 = format [] q2 -> q1 = q2).
Proof.
  split.
  - intros Hne. unfold formatResults.
    destruct results as [|r rest]; [contradiction | reflexivity].
  - unfold formatResults, noResultsMessage. simpl. intros [= H].
    apply string_app_inv_tail
      with (r := (Str.DQUOTE ++ "에 대한 검색 결과가 없습니다.")%string).
    exact H.
Qed.

(** X15. The tool list holds the single tool "search_notices", and the
    two handlers agree on it: a call under a name the list does not hold is
    answered with the unknown-tool envelope and sends nothing, and a call
    of the listed tool with arguments that pass validation sends the
    search request. *)
Theorem listed_tool_is_the_handled_tool
  (inputSchema : json) (remote : Remote) (name : string) (args : option json) :
  map Tool.name (listTools inputSchema) = ["search_notices"]
  /\ (~ In name (map Tool.name (listTools inputSchema)) ->
      handler remote (mkParams name args)
      = ([], Fulfilled (mkResult
                          [mkText "text" ("오류: " ++ "알 수 없는 도구: " ++ name)%string]
                          (Some true))))
  /\ (In name (map Tool.name (listTools inputSchema)) ->
      forall data,
        Zod.safeParse SearchNoticeArgsSchema args = Zod.SafeParseSuccess data ->
        fst (handler remote (mkParams name args)) = [searchRequest (query data)]).
Proof.
  split; [reflexivity|]. split.
  - intros Hnot.
    assert (Hname : String.eqb name "search_notices" = false).
    { apply String.eqb_neq. intros ->. apply Hnot. now left. }
    unfold callTool, callToolTry. simpl. rewrite Hname. reflexivity.
  - intros [<-|[]] data Hparse.
    rewrite callTool_settles. cbn [fst].
    rewrite (callToolTry_parsed _ _ remote (mkParams "search_notices" args) data
               eq_refl Hparse).
    reflexivity.
Qed.

End MoreServerProperties.

(** ** The further properties at the sample data *)

Lemma callTool_envelope_shape_witness :
  exists t, content (mkResult
                       [mkText "text"
                          (formatResults Sample.Number_toString
                             (firstn 2 Sample.ranked) "Seoul accelerator")]
                       None)
            = [mkText "text" t].
Proof.
  apply (callTool_envelope_shape Sample.Number_toString Sample.errorMap
           Sample.healthy Sample.seoul).
  reflexivity.
Defined.

(** A 500 answer whose body would never settle is reported all the same. *)
Lemma status_error_reported_witness :
  snd (callTool Sample.Number_toString Sample.errorMap Sample2.serverError Sample.seoul)
  = Fulfilled (mkResult
                 [mkText "text"
                    ("오류: " ++ "API 응답 오류: " ++ Str.ofNat 500 ++ " "
                     ++ "Internal Server Error")%string]
                 (Some true)).
Proof.
  apply (status_error_reported Sample.Number_toString Sample.errorMap
           Sample2.serverError Sample.seoul
           (mkArgs "Seoul accelerator" (Some 2%float)) 120
           (mkResponse 500 "Internal Server Error" Pending)).
  - reflexivity.
  - reflexivity.
  - reflexivity.
  - reflexivity.
  - reflexivity.
Defined.

Lemma callTool_reports_first_results_witness :
  exists z,
    (1 <= z <= 50)%Z
    /\ Some 2%float = Some (Number.ofZ z)
    /\ callTool Sample.Number_toString Sample.errorMap Sample.healthy Sample.seoul
       = ([searchRequest "Seoul accelerator"],
          Fulfilled (mkResult
                       [mkText "text"
                          (formatResults Sample.Number_toString
                             (firstn (Nat.min (Z.to_nat z) (length Sample.ranked))
                                Sample.ranked)
                             "Seoul accelerator")]
                       None))
    /\ (length (firstn (Nat.min (Z.to_nat z) (length Sample.ranked)) Sample.ranked)
        <= 50)%nat.
Proof.
  apply (callTool_reports_first_results Sample.Number_toString Sample.errorMap
           Sample.healthy Sample.seoul (mkArgs "Seoul accelerator" (Some 2%float)) 120
           (mkResponse 200 "OK" (Fulfilled (DataObject (Some (ResultsArray Sample.ranked)))))
           Sample.ranked).
  - reflexivity.
  - reflexivity.
  - reflexivity.
  - reflexivity.
  - reflexivity.
  - reflexivity.
Defined.

Lemma callTool_report_within_limit_witness :
  exists data z results,
    Zod.safeParse SearchNoticeArgsSchema (arguments Sample.seoul) = Zod.SafeParseSuccess data
    /\ limit data = Some (Number.ofZ z)
    /\ [mkText "text"
          (formatResults Sample.Number_toString (firstn 2 Sample.ranked) "Seoul accelerator")]
       = [mkText "text" (formatResults Sample.Number_toString results (query data))]
    /\ (length results <= Z.to_nat z)%nat
    /\ (Z.to_nat z <= 50)%nat.
Proof.
  apply (callTool_report_within_limit Sample.Number_toString Sample.errorMap
           Sample.healthy Sample.seoul
           (mkResult
              [mkText "text"
                 (formatResults Sample.Number_toString (firstn 2 Sample.ranked)
                    "Seoul accelerator")]
              None)).
  - reflexivity.
  - reflexivity.
Defined.

(** A query with no limit against an endpoint that found nothing. *)
Lemma callTool_empty_results_witness :
  snd (searchNotices Sample2.noResults "grants" (Some 5%float)) = Fulfilled []
  /\ snd (callTool Sample.Number_toString Sample.errorMap Sample2.noResults Sample2.grants)
     = Fulfilled (mkResult
                    [mkText "text"
                       (Str.DQUOTE ++ "grants" ++ Str.DQUOTE
                        ++ "에 대한 검색 결과가 없습니다.")%string]
                    None).
Proof.
  apply (callTool_empty_results Sample.Number_toString Sample.errorMap
           Sample2.noResults Sample2.grants (mkArgs "grants" (Some 5%float)) 120
           (mkResponse 200 "OK" (Fulfilled (DataObject (Some (ResultsArray [])))))).
  - reflexivity.
  - reflexivity.
  - reflexivity.
  - reflexivity.
  - reflexivity.
  - reflexivity.
Defined.
